(** * Capstone-backend-Elib: the route handlers of the library-lending backend

    A shallow embedding of [routes/route_user.py], [routes/route_loan.py] and
    [routes/route_category.py].  A handler is a function from the store
    (the relational tables), the bearer identity, the path parameters, the
    JSON body and the clock readings it makes, to an outcome and the store
    after the request.

    Conventions of the embedding:
    - a table is a finite map from the integer primary key to its row;
    - the JSON body is what [request.get_json()] returns: [None], or a
      dictionary from field names to JSON scalars;
    - [db.session.commit()] makes the handler's mutations visible; a handler
      that raises before its commit, or whose commit the store refuses,
      leaves the store as it was;
    - what the store itself decides (how it reads a JSON scalar as a primary
      key, which user and category rows it accepts at a commit and how it
      stores them) is a parameter of the handlers that depend on it;
    - [datetime.utcnow()] is an input of the handler, one argument per call,
      counted in microseconds;
    - the models ([models.py]) are known through the attributes and the
      methods the routes use. *)

From stdpp Require Import gmap strings list fin_maps.
From Stdlib Require Import ZArith Lia.

Local Open Scope Z_scope.

(** ** JSON values, responses *)

Module Json.

(** The scalars a request body carries ([None] is JSON null). *)
Inductive value :=
| VNone
| VBool (b : bool)
| VInt (n : Z)
| VStr (s : string).

#[global] Instance value_eq_dec : EqDecision value.
Proof. solve_decision. Defined.

(** Python truthiness: [None], [False], [0] and [""] are falsy. *)
Definition truthy (v : value) : bool :=
  match v with
  | VNone => false
  | VBool b => b
  | VInt n => negb (n =? 0)
  | VStr s => negb (String.eqb s "")
  end.

(** [data.get(k)] and [data.get(k, dflt)] on a dictionary. *)
Definition get (data : gmap string value) (k : string) : value :=
  default VNone (data !! k).

Definition get_default (data : gmap string value) (k : string) (dflt : value) : value :=
  default dflt (data !! k).

(** What [jsonify] is applied to. *)
#[local] Unset Elimination Schemes.
Inductive json :=
| JVal (v : value)
| JList (items : list json)
| JObj (fields : list (string * json)).
#[local] Set Elimination Schemes.

Definition JStr (s : string) : json := JVal (VStr s).
Definition JInt (n : Z) : json := JVal (VInt n).
Definition JBool (b : bool) : json := JVal (VBool b).
Definition JOpt (o : option Z) : json :=
  match o with Some n => JInt n | None => JVal VNone end.

(** The error envelope [{"msg": m}]. *)
Definition msg (m : string) : json := JObj [("msg"%string, JStr m)].

(** [AttributeError]: an attribute of [None] is read.  [StoreError]: the
    store refuses a query or a commit (an exception of the ORM). *)
Inductive exception := AttributeError | StoreError.

(** How a handler ends: it returns [jsonify(body), status]; or
    [get_or_404] aborts with an HTTP error that the framework renders; or an
    exception leaves the handler. *)
Inductive outcome :=
| Response (body : json) (status : Z)
| Abort (status : Z)
| Raise (e : exception).

Definition status_of (o : outcome) : option Z :=
  match o with
  | Response _ s => Some s
  | Abort s => Some s
  | Raise _ => None
  end.

Definition body_of (o : outcome) : option json :=
  match o with
  | Response b _ => Some b
  | _ => None
  end.

(** The outcome is the error envelope with the given status. *)
Definition is_envelope (o : outcome) : bool :=
  match o with
  | Response (JObj [(k, JVal (VStr _))]) _ => String.eqb k "msg"
  | _ => false
  end.

End Json.
Export Json.

(** ** The tables *)

Module Store.

(** The rows of [models.py], with the attributes the routes read and write;
    the primary key [id] is the key of the row in its table. *)
Record User := mkUser {
  username : value;
  email : value;
  password : value;
  is_admin : value;
  created_at : Z
}.

Record Ebook := mkEbook {
  title : string;
  available_copies : Z
}.

Record Loan := mkLoan {
  user_id : Z;
  ebook_id : Z;
  loan_date : Z;
  due_date : Z;
  return_date : option Z;
  is_returned : bool
}.

Record store := mkStore {
  users : gmap Z User;
  ebooks : gmap Z Ebook;
  loans : gmap Z Loan
}.

(** Modelled from the spec: the constructor of the [Loan] model, whose
    [is_returned] defaults to false and whose [return_date] is null until
    the return. *)
Definition new_Loan (user_id ebook_id loan_date due_date : Z) : Loan :=
  {| user_id := user_id; ebook_id := ebook_id;
     loan_date := loan_date; due_date := due_date;
     return_date := None; is_returned := false |}.

(** Modelled from the spec: the constructor of the [User] model, whose
    [created_at] is the time of creation. *)
Definition new_User (username email password is_admin : value) (now : Z) : User :=
  {| username := username; email := email; password := password;
     is_admin := is_admin; created_at := now |}.

(** What the store makes of a JSON scalar given to [Model.query.get] as a
    primary key: it reads it as an integer key (as ["1"] for 1), or as a
    value that no key equals, or it refuses it with an exception. *)
Inductive key_reading :=
| ReadsAs (i : Z)
| MatchesNothing
| Rejected.

(** Modelled from the spec: the id is generated by the store at the
    insertion; it is taken one more than the largest id of the table. *)
Definition next_id {A : Type} (tbl : gmap Z A) : Z :=
  1 + foldr Z.max 0 (map_to_list tbl).*1.

(** [timedelta(days=n)] in microseconds. *)
Definition timedelta_days (n : Z) : Z := n * 86400 * 1000000.

End Store.
Export Store.

(** ** routes/route_loan.py *)

Module RouteLoan.

Definition _require_admin (st : store) (ident : Z) : option outcome :=
  match users st !! ident with
  | Some user =>
      if negb (truthy (is_admin user))
      then Some (Response (msg "Accès interdit, vous n'êtes pas administrateur") 403)
      else None
  | None => Some (Response (msg "Accès interdit, vous n'êtes pas administrateur") 403)
  end.

Definition set_copies (e : Ebook) (n : Z) : Ebook :=
  {| title := title e; available_copies := n |}.

Section checkout.

(** How the store reads the [ebook_id] of the body as a primary key. *)
Variable read_key : value → key_reading.

(** POST /loans.  [data.get] on a body that is [None] raises; the ebook is
    the row of the key that the store reads in [data['ebook_id']], and
    [ebook.id] is that key; the two clock readings are those of [loan_date]
    and of [due_date]. *)
Definition create_loan (st : store) (ident : Z) (data : option (gmap string value))
    (now1 now2 : Z) : outcome * store :=
  match data with
  | None => (Raise AttributeError, st)
  | Some d =>
      if negb (truthy (get d "ebook_id"))
      then (Response (msg "L'identifiant du livre est requis") 400, st)
      else
        match read_key (get d "ebook_id") with
        | Rejected => (Raise StoreError, st)
        | MatchesNothing => (Abort 404, st)
        | ReadsAs eid =>
            match ebooks st !! eid with
            | None => (Abort 404, st)
            | Some ebook =>
                if available_copies ebook <? 1
                then (Response (msg "Aucune copie disponible pour ce livre") 400, st)
                else
                  let new_loan := new_Loan ident eid now1 (now2 + timedelta_days 14) in
                  let lid := next_id (loans st) in
                  let st' :=
                    {| users := users st;
                       ebooks :=
                         <[eid := set_copies ebook (available_copies ebook - 1)]> (ebooks st);
                       loans := <[lid := new_loan]> (loans st) |} in
                  (Response
                     (JObj [("msg"%string, JStr "Emprunt créé avec succès");
                            ("loan"%string,
                             JObj [("id"%string, JInt lid);
                                   ("user_id"%string, JInt (user_id new_loan));
                                   ("ebook_id"%string, JInt (ebook_id new_loan));
                                   ("loan_date"%string, JInt (loan_date new_loan));
                                   ("due_date"%string, JInt (due_date new_loan))])])
                     201, st')
            end
        end
  end.

End checkout.

Definition loan_json (row : Z * Loan) : json :=
  JObj [("id"%string, JInt row.1);
        ("user_id"%string, JInt (user_id row.2));
        ("ebook_id"%string, JInt (ebook_id row.2));
        ("loan_date"%string, JInt (loan_date row.2));
        ("due_date"%string, JInt (due_date row.2));
        ("return_date"%string, JOpt (return_date row.2));
        ("is_returned"%string, JBool (is_returned row.2))].

(** [Loan.query.all()] and [Loan.query.filter_by(user_id=uid).all()]. *)
Definition all_loans (st : store) : list (Z * Loan) := map_to_list (loans st).

Definition loans_of (st : store) (uid : Z) : list (Z * Loan) :=
  filter (λ row, user_id row.2 = uid) (map_to_list (loans st)).

(** GET /loans.  [user.is_admin] raises when [User.query.get] found no
    row. *)
Definition get_loans (st : store) (ident : Z) : outcome * store :=
  match users st !! ident with
  | None => (Raise AttributeError, st)
  | Some user =>
      let rows := if truthy (is_admin user) then all_loans st else loans_of st ident in
      (Response (JObj [("loans"%string, JList (loan_json <$> rows))]) 200, st)
  end.

Definition get_loan (st : store) (ident : Z) (loan_id : Z) : outcome * store :=
  match loans st !! loan_id with
  | None => (Abort 404, st)
  | Some loan =>
      match users st !! ident with
      | None => (Raise AttributeError, st)
      | Some user =>
          if negb (truthy (is_admin user)) && negb (user_id loan =? ident)
          then (Response (msg "Accès interdit") 403, st)
          else (Response (loan_json (loan_id, loan)) 200, st)
      end
  end.

Definition mark_returned (loan : Loan) (now : Z) : Loan :=
  {| user_id := user_id loan; ebook_id := ebook_id loan;
     loan_date := loan_date loan; due_date := due_date loan;
     return_date := Some now; is_returned := true |}.

(** PUT /loans/<loan_id>.  [loan.ebook] is the ebook of id
    [loan.ebook_id], [None] when there is no such row; the handler then
    raises before its commit. *)
Definition update_loan (st : store) (ident : Z) (loan_id : Z) (now : Z) : outcome * store :=
  match loans st !! loan_id with
  | None => (Abort 404, st)
  | Some loan =>
      if negb (user_id loan =? ident)
      then (Response (msg "Accès interdit, vous n'êtes pas propriétaire de ce prêt") 403, st)
      else if is_returned loan
      then (Response (msg "Ce prêt a déjà été retourné") 400, st)
      else
        match ebooks st !! ebook_id loan with
        | None => (Raise AttributeError, st)
        | Some ebook =>
            let loan' := mark_returned loan now in
            let st' :=
              {| users := users st;
                 ebooks := <[ebook_id loan := set_copies ebook (available_copies ebook + 1)]> (ebooks st);
                 loans := <[loan_id := loan']> (loans st) |} in
            (Response
               (JObj [("msg"%string,
                       JStr ("Prêt du livre " ++ title ebook ++ " retourné avec succès"));
                      ("loan"%string,
                       JObj [("id"%string, JInt loan_id);
                             ("return_date"%string, JOpt (return_date loan'));
                             ("is_returned"%string, JBool (is_returned loan'))])])
               200, st')
        end
  end.

Definition get_user_loans (st : store) (ident : Z) (uid : Z) : outcome * store :=
  match users st !! ident with
  | None => (Raise AttributeError, st)
  | Some current_user =>
      if negb (truthy (is_admin current_user)) && negb (ident =? uid)
      then (Response (msg "Accès interdit") 403, st)
      else (Response (JObj [("loans"%string, JList (loan_json <$> loans_of st uid))]) 200, st)
  end.

(** DELETE /loans/<loan_id>. *)
Definition delete_loan (st : store) (ident : Z) (loan_id : Z) : outcome * store :=
  match _require_admin st ident with
  | Some err => (err, st)
  | None =>
      match loans st !! loan_id with
      | None => (Abort 404, st)
      | Some loan =>
          (Response (msg "Prêt supprimé avec succès") 200,
           {| users := users st; ebooks := ebooks st;
              loans := delete loan_id (loans st) |})
      end
  end.

(** The loan requests, and a store driven by a sequence of them. *)
Inductive loan_request :=
| CreateLoan (ident : Z) (data : option (gmap string value)) (now1 now2 : Z)
| ReturnLoan (ident : Z) (loan_id : Z) (now : Z)
| DeleteLoan (ident : Z) (loan_id : Z).

Section requests.

Variable read_key : value → key_reading.

Definition handle (st : store) (r : loan_request) : outcome * store :=
  match r with
  | CreateLoan ident data now1 now2 => create_loan read_key st ident data now1 now2
  | ReturnLoan ident loan_id now => update_loan st ident loan_id now
  | DeleteLoan ident loan_id => delete_loan st ident loan_id
  end.

Fixpoint run (st : store) (rs : list loan_request) : store :=
  match rs with
  | [] => st
  | r :: rs' => run (handle st r).2 rs'
  end.

(** How many of the requests are a return of loan [lid] answered 200. *)
Definition returned_ok (lid : Z) (st : store) (r : loan_request) : bool :=
  match r with
  | ReturnLoan _ loan_id _ =>
      bool_decide (loan_id = lid) && bool_decide (status_of (handle st r).1 = Some 200)
  | _ => false
  end.

Fixpoint count_returns (lid : Z) (st : store) (rs : list loan_request) : nat :=
  match rs with
  | [] => 0%nat
  | r :: rs' =>
      ((if returned_ok lid st r then 1 else 0) + count_returns lid (handle st r).2 rs')%nat
  end.

(** The request deletes loan [lid]: a deleteLoan of it that is answered
    200. *)
Definition deleted_ok (lid : Z) (st : store) (r : loan_request) : bool :=
  match r with
  | DeleteLoan _ loan_id =>
      bool_decide (loan_id = lid) && bool_decide (status_of (handle st r).1 = Some 200)
  | _ => false
  end.

(** The requests of a sequence that come before the first one that deletes
    loan [lid]: all of them when none does. *)
Fixpoint lifetime (lid : Z) (st : store) (rs : list loan_request) : list loan_request :=
  match rs with
  | [] => []
  | r :: rs' =>
      if deleted_ok lid st r then [] else r :: lifetime lid (handle st r).2 rs'
  end.

End requests.

End RouteLoan.

(** ** routes/route_category.py *)

Module RouteCategory.

Definition _require_admin (st : store) (ident : Z) : option outcome :=
  match users st !! ident with
  | Some user =>
      if negb (truthy (is_admin user))
      then Some (Response (msg "Accès interdit, vous n'êtes pas administrateur") 403)
      else None
  | None => Some (Response (msg "Accès interdit, vous n'êtes pas administrateur") 403)
  end.

(** The rows of the [Category] model, and the tables the category routes
    work on: those of the store, and the categories. *)
Record Category := mkCategory {
  name : value;
  description : value
}.

Record library := mkLibrary {
  tables : store;
  categories : gmap Z Category
}.

Definition with_categories (lib : library) (cs : gmap Z Category) : library :=
  {| tables := tables lib; categories := cs |}.

(** [v or ""]. *)
Definition or_empty (v : value) : value := if truthy v then v else VStr "".

(** POST /categories. *)
Definition create_category (lib : library) (ident : Z) (data : option (gmap string value))
    : outcome * library :=
  match _require_admin (tables lib) ident with
  | Some err => (err, lib)
  | None =>
      match data with
      | None => (Raise AttributeError, lib)
      | Some d =>
          let name := get d "name" in
          let description := get d "description" in
          if negb (truthy name)
          then (Response (msg "Le nom de la catégorie est requis") 400, lib)
          else
            let new_category := {| name := name; description := or_empty description |} in
            let cid := next_id (categories lib) in
            (Response
               (JObj [("msg"%string, JStr "Catégorie créée");
                      ("category"%string,
                       JObj [("id"%string, JInt cid);
                             ("name"%string, JVal (RouteCategory.name new_category));
                             ("description"%string,
                              JVal (RouteCategory.description new_category))])])
               201,
             with_categories lib (<[cid := new_category]> (categories lib)))
      end
  end.

Definition category_json (row : Z * Category) : json :=
  JObj [("id"%string, JInt row.1);
        ("name"%string, JVal (name row.2));
        ("description"%string, JVal (or_empty (description row.2)))].

(** GET /categories. *)
Definition get_categories (lib : library) : outcome * library :=
  (Response
     (JObj [("categories"%string, JList (category_json <$> map_to_list (categories lib)))])
     200, lib).

(** GET /categories/<category_id>. *)
Definition get_category (lib : library) (category_id : Z) : outcome * library :=
  match categories lib !! category_id with
  | None => (Abort 404, lib)
  | Some category => (Response (category_json (category_id, category)) 200, lib)
  end.

Section writes.

(** What the store does at the commit of the category of key [cid], in the
    categories table [tbl], as the handler has set it: it refuses it
    ([None]: a null name, say) and the commit raises, or it stores the row
    as returned. *)
Variable commit_category : gmap Z Category → Z → Category → option Category.

(** PUT /categories/<category_id>.  The commit writes the row or raises. *)
Definition update_category (lib : library) (ident : Z) (category_id : Z)
    (data : option (gmap string value)) : outcome * library :=
  match _require_admin (tables lib) ident with
  | Some err => (err, lib)
  | None =>
      match categories lib !! category_id with
      | None => (Abort 404, lib)
      | Some category =>
          match data with
          | None => (Raise AttributeError, lib)
          | Some d =>
              match commit_category (categories lib) category_id
                      {| name := get_default d "name" (name category);
                         description :=
                           get_default d "description" (or_empty (description category)) |}
              with
              | None => (Raise StoreError, lib)
              | Some category' =>
                  (Response
                     (JObj [("msg"%string, JStr "Catégorie mise à jour");
                            ("category"%string,
                             JObj [("id"%string, JInt category_id);
                                   ("name"%string, JVal (name category'));
                                   ("description"%string, JVal (description category'))])])
                     200,
                   with_categories lib (<[category_id := category']> (categories lib)))
              end
          end
      end
  end.

End writes.

(** DELETE /categories/<category_id>. *)
Definition delete_category (lib : library) (ident : Z) (category_id : Z)
    : outcome * library :=
  match _require_admin (tables lib) ident with
  | Some err => (err, lib)
  | None =>
      match categories lib !! category_id with
      | None => (Abort 404, lib)
      | Some category =>
          (Response (msg "Catégorie supprimée") 200,
           with_categories lib (delete category_id (categories lib)))
      end
  end.

(** The category requests that write. *)
Inductive category_request :=
| CreateCategory (ident : Z) (data : option (gmap string value))
| UpdateCategory (ident : Z) (category_id : Z) (data : option (gmap string value))
| DeleteCategory (ident : Z) (category_id : Z).

Definition handle (commit_category : gmap Z Category → Z → Category → option Category)
    (lib : library) (r : category_request) : outcome * library :=
  match r with
  | CreateCategory ident data => create_category lib ident data
  | UpdateCategory ident category_id data =>
      update_category commit_category lib ident category_id data
  | DeleteCategory ident category_id => delete_category lib ident category_id
  end.

Definition requester (r : category_request) : Z :=
  match r with
  | CreateCategory ident _ => ident
  | UpdateCategory ident _ _ => ident
  | DeleteCategory ident _ => ident
  end.

End RouteCategory.

(** ** routes/route_user.py *)

Module RouteUser.

Section handlers.

(** [User.hash_password], [User.check_password] and [create_access_token]
    belong to the model and to the token library; the handlers are
    parametric in them. *)
Variable hash_password : value → value.
Variable check_password : value → value → bool.
Variable create_access_token : Z → Z → string.

(** What the store does at the commit of the row of key [uid], in the users
    table [tbl], to which the handler gave this username, this email and
    this is_admin: it refuses the row ([None]: a value that the column does
    not take, an email that another row has) and the commit raises, or it
    stores the three attributes as returned (a null is_admin of a new row
    as the column's default, say). *)
Variable commit_user :
  gmap Z User → Z → value → value → value → option (value * value * value).

Definition timedelta_hours (n : Z) : Z := n * 3600 * 1000000.

(** [_require_admin(user_id=None)]: [None] when access is granted, the
    error response otherwise. *)
Definition _require_admin (st : store) (ident : Z) (uid : option Z) : option outcome :=
  match users st !! ident with
  | None => Some (Response (msg "Utilisateur non trouvé") 404)
  | Some user =>
      match uid with
      | None =>
          if negb (truthy (is_admin user))
          then Some (Response (msg "Accès interdit, vous n'êtes pas administrateur") 403)
          else None
      | Some target =>
          if negb (truthy (is_admin user) || (ident =? target))
          then Some (Response
                       (msg "Accès interdit, vous n'êtes pas propriétaire du compte ou administrateur")
                       403)
          else None
      end
  end.

Definition user_json (row : Z * User) : json :=
  JObj [("id"%string, JInt row.1);
        ("username"%string, JVal (username row.2));
        ("email"%string, JVal (email row.2));
        ("is_admin"%string, JVal (is_admin row.2));
        ("created_at"%string, JInt (created_at row.2))].

Definition user_public (row : Z * User) : json :=
  JObj [("id"%string, JInt row.1);
        ("username"%string, JVal (username row.2));
        ("email"%string, JVal (email row.2));
        ("is_admin"%string, JVal (is_admin row.2))].

Definition with_users (st : store) (us : gmap Z User) : store :=
  {| users := us; ebooks := ebooks st; loans := loans st |}.

(** POST /users.  The commit writes the new row or raises. *)
Definition create_user (st : store) (data : option (gmap string value)) (now : Z)
    : outcome * store :=
  match data with
  | None => (Raise AttributeError, st)
  | Some d =>
      if negb (truthy (get d "username")) || negb (truthy (get d "email"))
         || negb (truthy (get d "password"))
      then (Response (msg "Nom d'utilisateur, email et mot de passe sont requis") 400, st)
      else
        let uid := next_id (users st) in
        match commit_user (users st) uid (get d "username") (get d "email")
                (get_default d "is_admin" (VBool false)) with
        | None => (Raise StoreError, st)
        | Some (n, e, a) =>
            let new_user := new_User n e (hash_password (get d "password")) a now in
            (Response (JObj [("msg"%string, JStr "Utilisateur créé avec succès");
                             ("user"%string, user_public (uid, new_user))]) 201,
             with_users st (<[uid := new_user]> (users st)))
        end
  end.

Definition get_users (st : store) (ident : Z) : outcome * store :=
  match _require_admin st ident None with
  | Some err => (err, st)
  | None =>
      (Response (JObj [("users"%string, JList (user_json <$> map_to_list (users st)))]) 200, st)
  end.

Definition get_user (st : store) (ident : Z) (uid : Z) : outcome * store :=
  match _require_admin st ident (Some uid) with
  | Some err => (err, st)
  | None =>
      match users st !! uid with
      | None => (Abort 404, st)
      | Some user => (Response (user_json (uid, user)) 200, st)
      end
  end.

(** PUT /users/<user_id>.  The attributes are set on the row, and the commit
    writes the row or raises. *)
Definition update_user (st : store) (ident : Z) (uid : Z) (data : option (gmap string value))
    : outcome * store :=
  match _require_admin st ident (Some uid) with
  | Some err => (err, st)
  | None =>
      match users st !! uid with
      | None => (Abort 404, st)
      | Some user =>
          match data with
          | None => (Raise AttributeError, st)
          | Some d =>
              match commit_user (users st) uid
                      (get_default d "username" (username user))
                      (get_default d "email" (email user))
                      (get_default d "is_admin" (is_admin user)) with
              | None => (Raise StoreError, st)
              | Some (n, e, a) =>
                  let user' :=
                    {| username := n;
                       email := e;
                       password :=
                         match d !! "password" with
                         | Some p => hash_password p
                         | None => password user
                         end;
                       is_admin := a;
                       created_at := created_at user |} in
                  (Response (JObj [("msg"%string, JStr "Utilisateur mis à jour avec succès");
                                   ("user"%string, user_public (uid, user'))]) 200,
                   with_users st (<[uid := user']> (users st)))
              end
          end
      end
  end.

Definition delete_user (st : store) (ident : Z) (uid : Z) : outcome * store :=
  match _require_admin st ident (Some uid) with
  | Some err => (err, st)
  | None =>
      match users st !! uid with
      | None => (Abort 404, st)
      | Some user =>
          (Response (msg "Utilisateur supprimé avec succès") 200,
           with_users st (delete uid (users st)))
      end
  end.

Definition get_current_user (st : store) (ident : Z) : outcome * store :=
  match users st !! ident with
  | None => (Abort 404, st)
  | Some user => (Response (user_json (ident, user)) 200, st)
  end.

(** [User.query.filter_by(email=e).first()]. *)
Definition first_by_email (st : store) (e : value) : option (Z * User) :=
  head (filter (λ row, email row.2 = e) (map_to_list (users st))).

(** POST /login. *)
Definition login (st : store) (data : option (gmap string value)) : outcome * store :=
  match data with
  | None => (Raise AttributeError, st)
  | Some d =>
      if negb (truthy (get d "email")) || negb (truthy (get d "password"))
      then (Response (msg "Email et mot de passe sont requis") 400, st)
      else
        match first_by_email st (get d "email") with
        | Some (uid, user) =>
            if check_password (get d "password") (password user)
            then (Response
                    (JObj [("access_token"%string,
                            JStr (create_access_token uid (timedelta_hours 1)))]) 200, st)
            else (Response (msg "Email ou mot de passe incorrect") 401, st)
        | None => (Response (msg "Email ou mot de passe incorrect") 401, st)
        end
  end.

End handlers.

End RouteUser.

(** ** The copies of an ebook *)

Module Accounting.
Import RouteLoan.

(** The loans on ebook [eid] that are not returned. *)
Definition active_loans (eid : Z) (st : store) : gmap Z Loan :=
  filter (λ row, ebook_id row.2 = eid ∧ is_returned row.2 = false) (loans st).

(** The copies of an ebook: those available and those out on a loan. *)
Definition stock (eid : Z) (st : store) : option Z :=
  (λ e, available_copies e + Z.of_nat (size (active_loans eid st))) <$> ebooks st !! eid.

Definition is_delete (r : loan_request) : bool :=
  match r with
  | DeleteLoan _ _ => true
  | _ => false
  end.

(** The request was served: 200 or 201. *)
Definition served (o : outcome) : bool :=
  bool_decide (status_of o = Some 200) || bool_decide (status_of o = Some 201).

End Accounting.
Export Accounting.

(** ** Invariants and sample stores *)

Module Samples.

(** Ebook [eid], when the store has it, has a non-negative number of
    available copies. *)
Definition copies_nonneg (eid : Z) (st : store) : Prop :=
  ∀ e, ebooks st !! eid = Some e → 0 ≤ available_copies e.

Definition alice : User :=
  {| username := VStr "alice"; email := VStr "alice@example.org";
     password := VStr "h1"; is_admin := VBool false; created_at := 0 |}.

Definition root : User :=
  {| username := VStr "root"; email := VStr "root@example.org";
     password := VStr "h2"; is_admin := VBool true; created_at := 0 |}.

(** Users 1 (alice) and 2 (root, an admin); ebook 1 with one copy left. *)
Definition st0 : store :=
  {| users := <[1 := alice]> (<[2 := root]> ∅);
     ebooks := <[1 := {| title := "Dune"; available_copies := 1 |}]> ∅;
     loans := ∅ |}.

Definition borrow (eid : Z) : gmap string value := {[ "ebook_id"%string := VInt eid ]}.

(** A checkout whose [ebook_id] is a string. *)
Definition borrow_str (eid : string) : gmap string value :=
  {[ "ebook_id"%string := VStr eid ]}.

Definition digit (c : Ascii.ascii) : option Z :=
  let n := Z.of_N (Ascii.N_of_ascii c) in
  if (48 <=? n) && (n <=? 57) then Some (n - 48) else None.

Fixpoint digits (s : string) (acc : Z) : option Z :=
  match s with
  | EmptyString => Some acc
  | String c s' =>
      match digit c with
      | Some k => digits s' (10 * acc + k)
      | None => None
      end
  end.

(** A store that reads as keys the integers, the booleans (as 0 and 1) and
    the strings of decimal digits, and for which any other scalar equals no
    key. *)
Definition sample_key (v : value) : key_reading :=
  match v with
  | VInt n => ReadsAs n
  | VBool b => ReadsAs (Z.b2z b)
  | VStr EmptyString => MatchesNothing
  | VStr s => match digits s 0 with Some n => ReadsAs n | None => MatchesNothing end
  | VNone => MatchesNothing
  end.

(** Loan 1 of user 1 on ebook 1, still active; no copy is left. *)
Definition st1 : store :=
  {| users := users st0;
     ebooks := <[1 := {| title := "Dune"; available_copies := 0 |}]> ∅;
     loans := <[1 := {| user_id := 1; ebook_id := 1; loan_date := 100;
                        due_date := 100 + timedelta_days 14;
                        return_date := None; is_returned := false |}]> ∅ |}.

Definition loan_of (uid : Z) (returned : bool) : Loan :=
  {| user_id := uid; ebook_id := 1; loan_date := 100;
     due_date := 100 + timedelta_days 14;
     return_date := if returned then Some 300 else None; is_returned := returned |}.

(** Loan 1 of user 1, active, and loan 2 of user 2, returned, on ebook 1. *)
Definition st2 : store :=
  {| users := users st0;
     ebooks := <[1 := {| title := "Dune"; available_copies := 3 |}]> ∅;
     loans := <[1 := loan_of 1 false]> (<[2 := loan_of 2 true]> ∅) |}.

(** One checkout of the last copy of ebook 1 by user 1. *)
Definition last_copy : list RouteLoan.loan_request :=
  [RouteLoan.CreateLoan 1 (Some (borrow 1)) 100 101].

(** The same, the ebook named by the string ["1"]. *)
Definition last_copy_str : list RouteLoan.loan_request :=
  [RouteLoan.CreateLoan 1 (Some (borrow_str "1")) 100 101].

(** A password check that compares with the stored value, and a constant
    token, to run the user handlers on the sample stores. *)
Definition plain_hash (p : value) : value := p.
Definition plain_check (p h : value) : bool := bool_decide (p = h).
Definition fixed_token (uid expires : Z) : string := "token".

(** Modelled from the spec: a store for the user rows of the data model.
    The email is unique: a row whose email another row has is refused.
    is_admin is a boolean, false by default: a boolean is stored, 0 and 1 as
    false and true, null as false, and anything else is refused. *)
Definition sample_commit_user (tbl : gmap Z User) (uid : Z) (n e a : value)
    : option (value * value * value) :=
  if bool_decide (Exists (λ row, row.1 ≠ uid ∧ email row.2 = e) (map_to_list tbl))
  then None
  else
    match a with
    | VBool b => Some (n, e, VBool b)
    | VNone => Some (n, e, VBool false)
    | VInt 0 => Some (n, e, VBool false)
    | VInt 1 => Some (n, e, VBool true)
    | _ => None
    end.

(** Modelled from the spec: a store for the categories of the data model,
    whose name is required: a row with a null name is refused. *)
Definition sample_commit_category (tbl : gmap Z RouteCategory.Category) (cid : Z)
    (c : RouteCategory.Category) : option RouteCategory.Category :=
  match RouteCategory.name c with
  | VNone => None
  | _ => Some c
  end.

Definition credentials (e p : string) : gmap string value :=
  {[ "email"%string := VStr e; "password"%string := VStr p ]}.

(** On the store [st1]: root tries to return Alice's loan 1, Alice tries to
    delete it and is refused, Alice returns it, root borrows the copy under
    the key ["1"], and deletes his own loan 2. *)
Definition mixed_requests : list RouteLoan.loan_request :=
  [RouteLoan.ReturnLoan 2 1 150; RouteLoan.DeleteLoan 1 1;
   RouteLoan.ReturnLoan 1 1 200;
   RouteLoan.CreateLoan 2 (Some (borrow_str "1")) 300 301;
   RouteLoan.DeleteLoan 2 2].

Definition registration (u e p : string) : gmap string value :=
  {[ "username"%string := VStr u; "email"%string := VStr e;
     "password"%string := VStr p ]}.

(** The sample users, and category 1, whose description is null. *)
Definition lib0 : RouteCategory.library :=
  {| RouteCategory.tables := st0;
     RouteCategory.categories :=
       <[1 := {| RouteCategory.name := VStr "Fiction";
                 RouteCategory.description := VNone |}]> ∅ |}.

End Samples.
Export Samples.

(** * Properties *)

(** ** The store *)

Module StoreFacts.

Lemma foldr_max_ge (l : list Z) (x : Z) : x ∈ l → x ≤ foldr Z.max 0 l.
Proof.
  induction l as [|y l IH]; intros Hx.
  - by apply elem_of_nil in Hx.
  - apply elem_of_cons in Hx as [->|Hx]; simpl; [lia|].
    specialize (IH Hx). lia.
Qed.

(** The id of an inserted row is not in use. *)
Lemma next_id_fresh {A : Type} (tbl : gmap Z A) : tbl !! next_id tbl = None.
Proof.
  destruct (tbl !! next_id tbl) as [r|] eqn:E; [exfalso|done].
  apply elem_of_map_to_list in E.
  assert (next_id tbl ∈ (map_to_list tbl).*1) as Hin.
  { apply list_elem_of_fmap. by exists (next_id tbl, r). }
  apply foldr_max_ge in Hin. unfold next_id in Hin. lia.
Qed.

Lemma next_id_ne {A : Type} (tbl : gmap Z A) (i : Z) (r : A) :
  tbl !! i = Some r → next_id tbl ≠ i.
Proof. intros Hi <-. rewrite next_id_fresh in Hi. discriminate. Qed.

End StoreFacts.

(** ** Loans *)

Module LoanTheory.
Import StoreFacts RouteLoan.

Section with_store.

Variable read_key : value → key_reading.

Lemma create_loan_copies_nonneg eid st ident data now1 now2 :
  copies_nonneg eid st → copies_nonneg eid (create_loan read_key st ident data now1 now2).2.
Proof.
  intros Hinv. unfold create_loan.
  destruct data as [d|]; [|done].
  destruct (negb (truthy (get d "ebook_id"))); [done|].
  destruct (read_key (get d "ebook_id")) as [eid'| |]; [|done|done].
  destruct (ebooks st !! eid') as [e'|]; [|done].
  destruct (available_copies e' <? 1) eqn:Hlt; [done|].
  apply Z.ltb_ge in Hlt. intros e. simpl.
  rewrite lookup_insert_Some. intros [[_ <-]|[_ He]]; [simpl; lia|by apply Hinv].
Qed.

Lemma update_loan_copies_nonneg eid st ident lid now :
  copies_nonneg eid st → copies_nonneg eid (update_loan st ident lid now).2.
Proof.
  intros Hinv. unfold update_loan.
  destruct (loans st !! lid) as [l|]; [|done].
  destruct (negb (user_id l =? ident)); [done|].
  destruct (is_returned l); [done|].
  destruct (ebooks st !! ebook_id l) as [e'|] eqn:He'; [|done].
  intros e. simpl.
  rewrite lookup_insert_Some. intros [[<- <-]|[_ He]]; [|by apply Hinv].
  specialize (Hinv e' He'). simpl. lia.
Qed.

Lemma delete_loan_ebooks st ident lid : ebooks (delete_loan st ident lid).2 = ebooks st.
Proof.
  unfold delete_loan.
  destruct (_require_admin st ident); [done|].
  by destruct (loans st !! lid).
Qed.

Lemma handle_copies_nonneg eid st r :
  copies_nonneg eid st → copies_nonneg eid (handle read_key st r).2.
Proof.
  destruct r as [ident data now1 now2|ident lid now|ident lid]; simpl.
  - apply create_loan_copies_nonneg.
  - apply update_loan_copies_nonneg.
  - unfold copies_nonneg. by rewrite delete_loan_ebooks.
Qed.

Lemma run_copies_nonneg eid st rs :
  copies_nonneg eid st → copies_nonneg eid (run read_key st rs).
Proof.
  revert st. induction rs as [|r rs IH]; intros st Hinv; simpl; [done|].
  apply IH, handle_copies_nonneg, Hinv.
Qed.

Lemma create_loan_no_copy st ident d v eid e now1 now2 :
  d !! "ebook_id" = Some v → read_key v = ReadsAs eid → ebooks st !! eid = Some e →
  available_copies e < 1 →
  ∃ m, create_loan read_key st ident (Some d) now1 now2 = (Response (msg m) 400, st).
Proof.
  intros Hd Hk He Hlt. unfold create_loan, get. rewrite Hd. simpl.
  destruct (negb (truthy v)); [by eexists|].
  rewrite Hk, He. apply Z.ltb_lt in Hlt. rewrite Hlt. by eexists.
Qed.

(** C1: for every ebook, over every sequence of createLoan, returnLoan and
    deleteLoan requests, an available_copies that is non-negative stays
    non-negative; and in the store so reached, a createLoan request for the
    ebook (a body whose ebook_id the store reads as the key of the ebook, be
    it an integer or a string) when its available_copies is 0 is answered
    400 with the store unchanged: no decrement, no loan row. *)
Theorem available_copies_never_negative (eid : Z) (st : store) (rs : list loan_request) :
  copies_nonneg eid st →
  copies_nonneg eid (run read_key st rs) ∧
  ∀ ident d v e now1 now2,
    d !! "ebook_id" = Some v → read_key v = ReadsAs eid →
    ebooks (run read_key st rs) !! eid = Some e → available_copies e = 0 →
    ∃ m, create_loan read_key (run read_key st rs) ident (Some d) now1 now2
         = (Response (msg m) 400, run read_key st rs).
Proof.
  intros Hinv. split; [by apply run_copies_nonneg|].
  intros ident d v e now1 now2 Hd Hk He H0.
  eapply create_loan_no_copy; eauto. lia.
Qed.


(** *** Returning a loan *)

Lemma update_loan_ok_inv st ident lid now :
  status_of (update_loan st ident lid now).1 = Some 200 →
  ∃ l, loans (update_loan st ident lid now).2 !! lid = Some l ∧ is_returned l = true.
Proof.
  unfold update_loan.
  destruct (loans st !! lid) as [l|]; [|done].
  destruct (negb (user_id l =? ident)); [done|].
  destruct (is_returned l); [done|].
  destruct (ebooks st !! ebook_id l) as [e|]; [|done].
  intros _. simpl. rewrite lookup_insert_eq. by eexists.
Qed.

(** A returned loan is frozen: no request that does not delete it changes
    it, and no return of it is answered 200. *)
Lemma handle_keeps_returned lid st r l :
  loans st !! lid = Some l → is_returned l = true →
  deleted_ok read_key lid st r = false →
  loans (handle read_key st r).2 !! lid = Some l ∧ returned_ok read_key lid st r = false.
Proof.
  intros Hl Hret Hdel.
  destruct r as [ident data now1 now2|ident lid' now|ident lid']; simpl.
  - split; [|done]. unfold create_loan.
    destruct data as [d|]; [|done].
    destruct (negb (truthy (get d "ebook_id"))); [done|].
    destruct (read_key (get d "ebook_id")) as [eid| |]; [|done|done].
    destruct (ebooks st !! eid) as [e|]; [|done].
    destruct (available_copies e <? 1); [done|].
    simpl. rewrite lookup_insert_ne; [done|]. by eapply next_id_ne.
  - unfold update_loan. destruct (decide (lid' = lid)) as [->|Hne].
    + rewrite Hl, Hret.
      destruct (negb (user_id l =? ident)); simpl;
        (split; [done|]); by rewrite andb_false_r.
    + rewrite (bool_decide_eq_false_2 _ Hne). split; [|done].
      destruct (loans st !! lid') as [l'|]; [|done].
      destruct (negb (user_id l' =? ident)); [done|].
      destruct (is_returned l'); [done|].
      destruct (ebooks st !! ebook_id l') as [e|]; [|done].
      simpl. by rewrite lookup_insert_ne.
  - split; [|done]. simpl in Hdel. unfold delete_loan in *.
    destruct (RouteLoan._require_admin st ident); [done|].
    destruct (decide (lid' = lid)) as [->|Hne].
    + rewrite Hl in Hdel. simpl in Hdel.
      rewrite !bool_decide_eq_true_2 in Hdel by done. done.
    + destruct (loans st !! lid'); [|done].
      simpl. by rewrite lookup_delete_ne.
Qed.

Lemma run_keeps_returned lid rs st l :
  loans st !! lid = Some l → is_returned l = true →
  loans (run read_key st (lifetime read_key lid st rs)) !! lid = Some l ∧
  count_returns read_key lid st (lifetime read_key lid st rs) = 0%nat.
Proof.
  revert st. induction rs as [|r rs IH]; intros st Hl Hret; simpl; [done|].
  destruct (deleted_ok read_key lid st r) eqn:Hdel; simpl; [done|].
  destruct (handle_keeps_returned lid st r l Hl Hret Hdel) as [Hl' ->].
  by destruct (IH _ Hl' Hret) as [-> ->].
Qed.

Lemma count_returns_le_1 lid rs st :
  (count_returns read_key lid st (lifetime read_key lid st rs) ≤ 1)%nat.
Proof.
  revert st. induction rs as [|r rs IH]; intros st; simpl; [lia|].
  destruct (deleted_ok read_key lid st r) eqn:Hdel; simpl; [lia|].
  destruct (returned_ok read_key lid st r) eqn:Hok.
  - destruct r as [| ident lid' now |]; try done.
    simpl in Hok. apply andb_true_iff in Hok as [Hid Hst].
    apply bool_decide_eq_true in Hid as ->. apply bool_decide_eq_true in Hst.
    destruct (update_loan_ok_inv _ _ _ _ Hst) as (l & Hl & Hret).
    destruct (run_keeps_returned lid rs _ l Hl Hret) as [_ Hcnt].
    simpl. rewrite Hcnt. lia.
  - specialize (IH (handle read_key st r).2). lia.
Qed.

(** C3: a returnLoan request is answered 404 when the loan id does not
    resolve; 403 when the requester is not the loan's owner, admin or not;
    400 when the loan is already returned; and in these cases the store is
    unchanged.  Otherwise the answer is 200, the loan gets is_returned true
    and return_date now, its ebook gets exactly one more available copy and
    nothing else changes.  Over any sequence of requests, as long as the
    loan exists (up to the first deleteLoan of it that is answered 200, if
    there is one), at most one return of it is answered 200, and once
    returned the loan stays as it is. *)
Theorem update_loan_spec (st : store) (ident loan_id now : Z) :
  (loans st !! loan_id = None →
   update_loan st ident loan_id now = (Abort 404, st)) ∧
  (∀ l, loans st !! loan_id = Some l → user_id l ≠ ident →
     ∃ m, update_loan st ident loan_id now = (Response (msg m) 403, st)) ∧
  (∀ l, loans st !! loan_id = Some l → user_id l = ident → is_returned l = true →
     ∃ m, update_loan st ident loan_id now = (Response (msg m) 400, st)) ∧
  (∀ l e, loans st !! loan_id = Some l → user_id l = ident → is_returned l = false →
     ebooks st !! ebook_id l = Some e →
     ∃ body l' e',
       update_loan st ident loan_id now
       = (Response body 200,
          {| users := users st;
             ebooks := <[ebook_id l := e']> (ebooks st);
             loans := <[loan_id := l']> (loans st) |}) ∧
       is_returned l' = true ∧ return_date l' = Some now ∧
       user_id l' = user_id l ∧ ebook_id l' = ebook_id l ∧
       loan_date l' = loan_date l ∧ due_date l' = due_date l ∧
       available_copies e' = available_copies e + 1 ∧ title e' = title e) ∧
  (∀ rs,
     (count_returns read_key loan_id st (lifetime read_key loan_id st rs) ≤ 1)%nat ∧
     ∀ l, loans st !! loan_id = Some l → is_returned l = true →
       loans (run read_key st (lifetime read_key loan_id st rs)) !! loan_id = Some l ∧
       count_returns read_key loan_id st (lifetime read_key loan_id st rs) = 0%nat).
Proof.
  unfold update_loan. repeat split.
  - by intros ->.
  - intros l -> Hne. apply Z.eqb_neq in Hne. rewrite Hne. simpl. by eexists.
  - intros l -> <- ->. rewrite Z.eqb_refl. simpl. by eexists.
  - intros l e -> <- -> ->. rewrite Z.eqb_refl. simpl.
    eexists _, (mark_returned l now), (set_copies e (available_copies e + 1)).
    done.
  - by apply count_returns_le_1.
  - by eapply run_keeps_returned.
  - by eapply run_keeps_returned.
Qed.

End with_store.

Lemma available_copies_never_negative_witness :
  copies_nonneg 1 st0 ∧
  copies_nonneg 1 (run sample_key st0 last_copy_str) ∧
  ∃ m, create_loan sample_key (run sample_key st0 last_copy_str) 2
         (Some (borrow_str "1")) 200 201
       = (Response (msg m) 400, run sample_key st0 last_copy_str).
Proof.
  assert (copies_nonneg 1 st0) as Hinv.
  { intros e He. vm_compute in He. injection He as <-. simpl. lia. }
  destruct (available_copies_never_negative sample_key 1 st0 last_copy_str Hinv)
    as [Hrun Hfail].
  split; [exact Hinv|]. split; [exact Hrun|].
  apply (Hfail 2 (borrow_str "1") (VStr "1") {| title := "Dune"; available_copies := 0 |}
           200 201); reflexivity.
Defined.



(** Two checkouts of the last copy of ebook 1, one after the other: the
    first is answered 201, the second 400, and no copy is left. *)
Example last_copy_sequential :
  status_of (create_loan sample_key st0 1 (Some (borrow 1)) 100 101).1 = Some 201 ∧
  status_of (create_loan sample_key (run sample_key st0 last_copy) 2
               (Some (borrow 1)) 102 103).1 = Some 400 ∧
  available_copies <$> ebooks (run sample_key st0 last_copy) !! 1 = Some 0.
Proof. repeat split; reflexivity. Qed.

(** Root (user 2, an admin) is refused, Alice (user 1, the owner) returns
    loan 1, and every later attempt is refused; in [mixed_requests], where
    Alice's deleteLoan is refused, no request deletes loan 1. *)
Lemma update_loan_spec_witness :
  (∃ m, update_loan st1 2 1 500 = (Response (msg m) 403, st1)) ∧
  (∃ body st', update_loan st1 1 1 500 = (Response body 200, st') ∧
     ebooks st' !! 1 = Some {| title := "Dune"; available_copies := 1 |} ∧
     (∃ m, update_loan st' 1 1 600 = (Response (msg m) 400, st'))) ∧
  lifetime sample_key 1 st1 mixed_requests = mixed_requests ∧
  (count_returns sample_key 1 st1 mixed_requests ≤ 1)%nat.
Proof.
  split; [|split; [|split]].
  - destruct (update_loan_spec sample_key st1 2 1 500) as (_ & H403 & _).
    eapply H403; [reflexivity|]. simpl. lia.
  - destruct (update_loan_spec sample_key st1 1 1 500) as (_ & _ & _ & Hok & _).
    edestruct Hok as (body & l' & e' & Heq & Hret & _ & Hu & _ & _ & _ & Hc & Ht);
      [reflexivity|reflexivity|reflexivity|reflexivity|].
    eexists _, _. split; [exact Heq|]. split.
    + simpl. rewrite lookup_insert_eq. destruct e'; simpl in *. by subst.
    + match goal with |- ∃ m, update_loan ?s _ _ _ = _ =>
        destruct (update_loan_spec sample_key s 1 1 600) as (_ & _ & H400 & _) end.
      eapply H400; [apply lookup_insert_eq|exact Hu|exact Hret].
  - reflexivity.
  - destruct (update_loan_spec sample_key st1 1 1 0) as (_ & _ & _ & _ & Hseq).
    destruct (Hseq mixed_requests) as [Hle _].
    change (lifetime sample_key 1 st1 mixed_requests) with mixed_requests in Hle.
    exact Hle.
Defined.

(** *** Listing and deleting loans *)

(** C7: for a caller whose user record exists, listLoans answers 200 with a
    list that has one entry, holding the id, user_id, ebook_id, loan_date,
    due_date, return_date and is_returned of the loan, for every loan of
    the store when the caller is an admin, and for exactly the loans whose
    user_id is the caller's identity otherwise. *)
Theorem get_loans_scope (st : store) (ident : Z) (u : User) :
  users st !! ident = Some u →
  ∃ rows,
    get_loans st ident
    = (Response
         (JObj [("loans"%string,
                 JList ((λ row : Z * Loan,
                     JObj [("id"%string, JVal (VInt row.1));
                           ("user_id"%string, JVal (VInt (user_id row.2)));
                           ("ebook_id"%string, JVal (VInt (ebook_id row.2)));
                           ("loan_date"%string, JVal (VInt (loan_date row.2)));
                           ("due_date"%string, JVal (VInt (due_date row.2)));
                           ("return_date"%string,
                            match return_date row.2 with
                            | Some t => JVal (VInt t)
                            | None => JVal VNone
                            end);
                           ("is_returned"%string, JVal (VBool (is_returned row.2)))]) <$> rows))]) 200, st) ∧
    NoDup rows ∧
    (truthy (is_admin u) = true →
     ∀ lid l, (lid, l) ∈ rows ↔ loans st !! lid = Some l) ∧
    (truthy (is_admin u) = false →
     ∀ lid l, (lid, l) ∈ rows ↔ loans st !! lid = Some l ∧ user_id l = ident).
Proof.
  intros Hu. unfold get_loans. rewrite Hu.
  destruct (truthy (is_admin u)) eqn:Hadm.
  - exists (all_loans st). split; [reflexivity|]. split; [apply NoDup_map_to_list|].
    split; [|done]. intros _ lid l. apply elem_of_map_to_list.
  - exists (loans_of st ident). split; [reflexivity|].
    split; [apply NoDup_filter, NoDup_map_to_list|].
    split; [done|]. intros _ lid l. unfold loans_of.
    rewrite list_elem_of_filter, elem_of_map_to_list. simpl. tauto.
Qed.

Lemma get_loans_scope_witness :
  users st2 !! 1 = Some alice ∧
  ∃ rows,
    get_loans st2 1
    = (Response
         (JObj [("loans"%string,
                 JList ((λ row : Z * Loan,
                     JObj [("id"%string, JVal (VInt row.1));
                           ("user_id"%string, JVal (VInt (user_id row.2)));
                           ("ebook_id"%string, JVal (VInt (ebook_id row.2)));
                           ("loan_date"%string, JVal (VInt (loan_date row.2)));
                           ("due_date"%string, JVal (VInt (due_date row.2)));
                           ("return_date"%string,
                            match return_date row.2 with
                            | Some t => JVal (VInt t)
                            | None => JVal VNone
                            end);
                           ("is_returned"%string, JVal (VBool (is_returned row.2)))]) <$> rows))]) 200, st2) ∧
    (1, loan_of 1 false) ∈ rows ∧ (2, loan_of 2 true) ∉ rows.
Proof.
  split; [reflexivity|].
  destruct (get_loans_scope st2 1 alice) as (rows & Heq & _ & _ & Hown); [reflexivity|].
  exists rows. split; [exact Heq|]. specialize (Hown eq_refl). split.
  - apply Hown. split; reflexivity.
  - intros Hin. apply Hown in Hin as [_ Hid]. discriminate Hid.
Defined.

(** C9: a deleteLoan request of an admin on an existing loan, returned or
    active, is answered 200; the loan row is removed, every other loan is
    kept, and the ebooks (with their available_copies) and the users are
    unchanged. *)
Theorem delete_loan_frame (st : store) (ident loan_id : Z) (u : User) (l : Loan) :
  users st !! ident = Some u → truthy (is_admin u) = true →
  loans st !! loan_id = Some l →
  ∃ st',
    delete_loan st ident loan_id = (Response (msg "Prêt supprimé avec succès") 200, st') ∧
    loans st' !! loan_id = None ∧
    (∀ j, j ≠ loan_id → loans st' !! j = loans st !! j) ∧
    ebooks st' = ebooks st ∧
    users st' = users st.
Proof.
  intros Hu Hadm Hl. unfold delete_loan, RouteLoan._require_admin.
  rewrite Hu, Hadm, Hl. simpl. eexists. split; [reflexivity|]. simpl.
  split; [apply lookup_delete_eq|]. split; [|done].
  intros j Hj. by apply lookup_delete_ne.
Qed.

(** Root deletes the active loan 1: ebook 1 keeps its 3 copies. *)
Lemma delete_loan_frame_witness :
  users st2 !! 2 = Some root ∧ truthy (is_admin root) = true ∧
  loans st2 !! 1 = Some (loan_of 1 false) ∧
  ∃ st',
    delete_loan st2 2 1 = (Response (msg "Prêt supprimé avec succès") 200, st') ∧
    loans st' !! 1 = None ∧
    ebooks st' !! 1 = Some {| title := "Dune"; available_copies := 3 |}.
Proof.
  split; [reflexivity|]. split; [reflexivity|]. split; [reflexivity|].
  destruct (delete_loan_frame st2 2 1 root (loan_of 1 false))
    as (st' & Heq & Hgone & _ & Heb & _); [reflexivity|reflexivity|reflexivity|].
  exists st'. split; [exact Heq|]. split; [exact Hgone|]. rewrite Heb. reflexivity.
Defined.

End LoanTheory.

(** ** The authorization predicates *)

Module AuthTheory.

(** C5, as stated, fails on the code: listUsers is admin-only, and with a
    bearer identity that resolves to no user its predicate answers 404, not
    403. *)
Lemma admin_only_claim_counterexample :
  users st0 !! 7 = None ∧
  RouteUser._require_admin st0 7 None
  = Some (Response (msg "Utilisateur non trouvé") 404) ∧
  status_of (RouteUser.get_users st0 7).1 = Some 404.
Proof. repeat split; reflexivity. Qed.

(** C5 (amended): with a bearer identity that resolves to no user, the
    predicate of the user handler answers 404 "Utilisateur non trouvé" in
    its owner-or-admin use (getUser, updateUser, deleteUser) and in its
    admin-only use (listUsers) alike, while the admin-only predicates of the
    loan handler and of the category handler answer 403; the store is
    unchanged. *)
Theorem missing_identity_status (st : store) (ident : Z) :
  users st !! ident = None →
  (∀ uid : option Z,
     RouteUser._require_admin st ident uid
     = Some (Response (msg "Utilisateur non trouvé") 404)) ∧
  RouteUser.get_users st ident = (Response (msg "Utilisateur non trouvé") 404, st) ∧
  (∀ uid, RouteUser.get_user st ident uid
          = (Response (msg "Utilisateur non trouvé") 404, st)) ∧
  (∀ hash_password commit_user uid data,
     RouteUser.update_user hash_password commit_user st ident uid data
     = (Response (msg "Utilisateur non trouvé") 404, st)) ∧
  (∀ uid, RouteUser.delete_user st ident uid
          = (Response (msg "Utilisateur non trouvé") 404, st)) ∧
  RouteLoan._require_admin st ident
  = Some (Response (msg "Accès interdit, vous n'êtes pas administrateur") 403) ∧
  (∀ loan_id, RouteLoan.delete_loan st ident loan_id
              = (Response (msg "Accès interdit, vous n'êtes pas administrateur") 403, st)) ∧
  RouteCategory._require_admin st ident
  = Some (Response (msg "Accès interdit, vous n'êtes pas administrateur") 403).
Proof.
  intros Hu.
  unfold RouteUser.get_users, RouteUser.get_user, RouteUser.update_user,
    RouteUser.delete_user, RouteLoan.delete_loan,
    RouteUser._require_admin, RouteLoan._require_admin, RouteCategory._require_admin.
  rewrite Hu. repeat split.
Qed.

Lemma missing_identity_status_witness :
  users st0 !! 7 = None ∧
  RouteUser._require_admin st0 7 (Some 1)
  = Some (Response (msg "Utilisateur non trouvé") 404) ∧
  RouteUser._require_admin st0 7 None
  = Some (Response (msg "Utilisateur non trouvé") 404) ∧
  status_of (RouteLoan.delete_loan st0 7 1).1 = Some 403.
Proof.
  split; [reflexivity|].
  destruct (missing_identity_status st0 7) as (Hp & _ & _ & _ & _ & _ & Hdel & _);
    [reflexivity|].
  split; [apply Hp|]. split; [apply Hp|]. by rewrite Hdel.
Defined.

End AuthTheory.

(** ** Users *)

Module UserTheory.
Import RouteUser.

Section with_model.

Variable hash_password : value → value.
Variable check_password : value → value → bool.
Variable create_access_token : Z → Z → string.
Variable commit_user :
  gmap Z User → Z → value → value → value → option (value * value * value).

Lemma first_by_email_Some st e uid u :
  first_by_email st e = Some (uid, u) → users st !! uid = Some u ∧ email u = e.
Proof.
  unfold first_by_email. intros Hh. apply head_Some_elem_of in Hh.
  apply list_elem_of_filter in Hh as [He Hin].
  by apply elem_of_map_to_list in Hin.
Qed.

Lemma first_by_email_None st e uid u :
  first_by_email st e = None → users st !! uid = Some u → email u ≠ e.
Proof.
  unfold first_by_email. intros Hh Hu He. apply head_None in Hh.
  apply (filter_nil_not_elem_of _ _ (uid, u)) in Hh; [|done].
  by apply Hh, elem_of_map_to_list.
Qed.

(** C6: a login with the email of a stored user and a password that the
    check rejects, and a login with an email of no stored user, are answered
    alike: status 401 and the same body, the store unchanged. *)
Theorem login_no_enumeration (st : store) (d1 d2 : gmap string value) :
  truthy (get d1 "email") = true → truthy (get d1 "password") = true →
  truthy (get d2 "email") = true → truthy (get d2 "password") = true →
  (∃ uid u, users st !! uid = Some u ∧ email u = get d1 "email") →
  (∀ uid u, users st !! uid = Some u → email u = get d1 "email" →
     check_password (get d1 "password") (password u) = false) →
  (∀ uid u, users st !! uid = Some u → email u ≠ get d2 "email") →
  login check_password create_access_token st (Some d1)
  = (Response (msg "Email ou mot de passe incorrect") 401, st) ∧
  login check_password create_access_token st (Some d2)
  = login check_password create_access_token st (Some d1).
Proof.
  intros He1 Hp1 He2 Hp2 _ Hwrong Hnone.
  assert (login check_password create_access_token st (Some d1)
          = (Response (msg "Email ou mot de passe incorrect") 401, st)) as H1.
  { unfold login. rewrite He1, Hp1. simpl.
    destruct (first_by_email st (get d1 "email")) as [[uid u]|] eqn:Hf; [|done].
    apply first_by_email_Some in Hf as [Hu He]. by rewrite (Hwrong uid u Hu He). }
  split; [exact H1|]. rewrite H1.
  unfold login. rewrite He2, Hp2. simpl.
  destruct (first_by_email st (get d2 "email")) as [[uid u]|] eqn:Hf; [|done].
  apply first_by_email_Some in Hf as [Hu He]. by destruct (Hnone uid u Hu).
Qed.

(** C10 (amended): an updateUser request that passes the owner-or-admin
    check on an existing user, with a JSON object as body, and whose row,
    the fields of the body set, the store accepts as it is at the commit, is
    answered 200 and replaces the row of that user only: username, email,
    password and is_admin keep their stored value when omitted from the
    body; a password that is present is stored hashed; an is_admin that is
    present is stored as supplied, whoever the caller is. *)
Theorem update_user_partial (st : store) (ident uid : Z) (d : gmap string value)
    (caller target : User) :
  users st !! ident = Some caller →
  truthy (is_admin caller) = true ∨ ident = uid →
  users st !! uid = Some target →
  commit_user (users st) uid
    (get_default d "username" (username target))
    (get_default d "email" (email target))
    (get_default d "is_admin" (is_admin target))
  = Some (get_default d "username" (username target),
          get_default d "email" (email target),
          get_default d "is_admin" (is_admin target)) →
  ∃ body u',
    update_user hash_password commit_user st ident uid (Some d)
    = (Response body 200,
       {| users := <[uid := u']> (users st); ebooks := ebooks st; loans := loans st |}) ∧
    (d !! "username" = None → username u' = username target) ∧
    (d !! "email" = None → email u' = email target) ∧
    (d !! "password" = None → password u' = password target) ∧
    (d !! "is_admin" = None → is_admin u' = is_admin target) ∧
    (∀ v, d !! "username" = Some v → username u' = v) ∧
    (∀ v, d !! "email" = Some v → email u' = v) ∧
    (∀ p, d !! "password" = Some p → password u' = hash_password p) ∧
    (∀ v, d !! "is_admin" = Some v → is_admin u' = v) ∧
    created_at u' = created_at target.
Proof.
  intros Hc Hauth Ht Hcommit. unfold update_user, _require_admin. rewrite Hc.
  assert (negb (truthy (is_admin caller) || (ident =? uid)) = false) as ->.
  { destruct Hauth as [->| ->]; [done|]. by rewrite Z.eqb_refl, orb_true_r. }
  rewrite Ht, Hcommit. eexists _, _. split; [reflexivity|]. simpl. unfold get_default.
  repeat split; try (by intros ->); by intros v ->.
Qed.

End with_model.

Lemma users_st0 uid u :
  users st0 !! uid = Some u → uid = 1 ∧ u = alice ∨ uid = 2 ∧ u = root.
Proof.
  unfold st0. simpl. intros H.
  apply lookup_insert_Some in H as [[<- <-]|[_ H]]; [by left|].
  apply lookup_insert_Some in H as [[<- <-]|[_ H]]; [by right|].
  by rewrite lookup_empty in H.
Qed.

(** Alice's email with a wrong password, and an unknown email. *)
Lemma login_no_enumeration_witness :
  login plain_check fixed_token st0 (Some (credentials "alice@example.org" "guess"))
  = (Response (msg "Email ou mot de passe incorrect") 401, st0) ∧
  login plain_check fixed_token st0 (Some (credentials "nobody@example.org" "guess"))
  = login plain_check fixed_token st0 (Some (credentials "alice@example.org" "guess")).
Proof.
  apply (login_no_enumeration plain_check fixed_token st0
           (credentials "alice@example.org" "guess")
           (credentials "nobody@example.org" "guess")); try reflexivity.
  - exists 1, alice. split; reflexivity.
  - intros uid u Hu He. apply users_st0 in Hu as [[_ ->]|[_ ->]]; [reflexivity|].
    discriminate He.
  - intros uid u Hu He. apply users_st0 in Hu as [[_ ->]|[_ ->]]; discriminate He.
Defined.

(** C10, as stated, fails on the code.  On a store where is_admin is a
    boolean and the email is unique, Alice's request with a password and
    with is_admin ["yes"], and her request with a password and with root's
    email, make the commit raise: the password is present and the stored
    value does not become its hash, is_admin is present and is not set. *)
Lemma update_user_claim_counterexample :
  (update_user plain_hash sample_commit_user st0 1 1
     (Some {[ "password"%string := VStr "new"; "is_admin"%string := VStr "yes" ]})
   = (Raise StoreError, st0)) ∧
  (update_user plain_hash sample_commit_user st0 1 1
     (Some {[ "password"%string := VStr "new";
              "email"%string := VStr "root@example.org" ]})
   = (Raise StoreError, st0)) ∧
  password <$> users st0 !! 1 = Some (VStr "h1") ∧
  is_admin <$> users st0 !! 1 = Some (VBool false).
Proof. repeat split; reflexivity. Qed.

(** Alice, who is not an admin, makes herself one. *)
Lemma update_user_partial_witness :
  users st0 !! 1 = Some alice ∧ truthy (is_admin alice) = false ∧
  ∃ body u',
    update_user plain_hash sample_commit_user st0 1 1
      (Some {[ "is_admin"%string := VBool true ]})
    = (Response body 200,
       {| users := <[1 := u']> (users st0); ebooks := ebooks st0; loans := loans st0 |}) ∧
    is_admin u' = VBool true ∧ username u' = VStr "alice" ∧ password u' = VStr "h1".
Proof.
  split; [reflexivity|]. split; [reflexivity|].
  destruct (update_user_partial plain_hash sample_commit_user st0 1 1
              {[ "is_admin"%string := VBool true ]} alice alice)
    as (body & u' & Heq & Hn & _ & Hp & _ & _ & _ & _ & Ha & _);
    [reflexivity|by right|reflexivity|reflexivity|].
  exists body, u'. split; [exact Heq|].
  split; [by apply Ha|]. split; [by apply Hn|by apply Hp].
Defined.

End UserTheory.

(** ** Faults *)

Module FaultTheory.

(** C8 fails on the code: with a bearer identity whose user row is gone,
    listLoans raises out of the handler ([user.is_admin] on [None]), where
    the predicate [_require_admin] of the same file tests [not user]; and
    with a body that decodes to [None], createLoan, createUser and login
    raise ([data.get] on [None]).  No envelope, no status. *)
Theorem unhandled_fault (st : store) (ident : Z) :
  users st !! ident = None →
  RouteLoan.get_loans st ident = (Raise AttributeError, st) ∧
  is_envelope (RouteLoan.get_loans st ident).1 = false ∧
  status_of (RouteLoan.get_loans st ident).1 = None ∧
  (∀ read_key now1 now2,
     RouteLoan.create_loan read_key st ident None now1 now2
     = (Raise AttributeError, st)) ∧
  (∀ hash_password commit_user now,
     RouteUser.create_user hash_password commit_user st None now
     = (Raise AttributeError, st)) ∧
  (∀ check_password create_access_token,
     RouteUser.login check_password create_access_token st None
     = (Raise AttributeError, st)).
Proof.
  intros Hu. unfold RouteLoan.get_loans. rewrite Hu. repeat split.
Qed.

Lemma unhandled_fault_witness :
  users st0 !! 7 = None ∧
  RouteLoan.get_loans st0 7 = (Raise AttributeError, st0).
Proof.
  split; [reflexivity|]. apply (unhandled_fault st0 7). reflexivity.
Defined.

End FaultTheory.

(** ** Loans: how the requests compose *)

Module LoanLedger.
Import StoreFacts RouteLoan.

(** X2: getLoan answers 404 for a loan id that does not resolve, before it
    looks at the caller; for an existing loan and a caller whose user record
    exists, it answers 200 with the id, user_id, ebook_id, loan_date,
    due_date, return_date and is_returned of the loan when the caller is an
    admin or the owner of the loan, and 403 otherwise.  It never changes the
    store. *)
Theorem get_loan_access (st : store) (ident loan_id : Z) :
  (get_loan st ident loan_id).2 = st ∧
  (loans st !! loan_id = None → get_loan st ident loan_id = (Abort 404, st)) ∧
  ∀ l u, loans st !! loan_id = Some l → users st !! ident = Some u →
    (truthy (is_admin u) = true ∨ user_id l = ident →
     get_loan st ident loan_id
     = (Response
          (JObj [("id"%string, JVal (VInt loan_id));
                 ("user_id"%string, JVal (VInt (user_id l)));
                 ("ebook_id"%string, JVal (VInt (ebook_id l)));
                 ("loan_date"%string, JVal (VInt (loan_date l)));
                 ("due_date"%string, JVal (VInt (due_date l)));
                 ("return_date"%string,
                  match return_date l with
                  | Some t => JVal (VInt t)
                  | None => JVal VNone
                  end);
                 ("is_returned"%string, JVal (VBool (is_returned l)))])
          200, st)) ∧
    (truthy (is_admin u) = false → user_id l ≠ ident →
     get_loan st ident loan_id = (Response (msg "Accès interdit") 403, st)).
Proof.
  unfold get_loan. split; [|split].
  - destruct (loans st !! loan_id); [|done].
    destruct (users st !! ident); [|done].
    by destruct (_ && _).
  - by intros ->.
  - intros l u -> ->. split.
    + intros [->|Hown]; [reflexivity|].
      apply Z.eqb_eq in Hown. rewrite Hown, andb_false_r. reflexivity.
    + intros -> Hne. apply Z.eqb_neq in Hne. by rewrite Hne.
Qed.

Lemma get_loan_access_witness :
  get_loan st2 1 1
  = (Response
       (JObj [("id"%string, JVal (VInt 1)); ("user_id"%string, JVal (VInt 1));
              ("ebook_id"%string, JVal (VInt 1)); ("loan_date"%string, JVal (VInt 100));
              ("due_date"%string, JVal (VInt (100 + timedelta_days 14)));
              ("return_date"%string, JVal VNone);
              ("is_returned"%string, JVal (VBool false))]) 200, st2) ∧
  get_loan st2 1 2 = (Response (msg "Accès interdit") 403, st2) ∧
  status_of (get_loan st2 2 1).1 = Some 200 ∧
  get_loan st2 1 9 = (Abort 404, st2).
Proof.
  destruct (get_loan_access st2 1 1) as (_ & _ & H11).
  destruct (get_loan_access st2 1 2) as (_ & _ & H12).
  destruct (get_loan_access st2 2 1) as (_ & _ & H21).
  destruct (get_loan_access st2 1 9) as (_ & H19 & _).
  split; [|split; [|split]].
  - apply (H11 (loan_of 1 false) alice); [reflexivity|reflexivity|by right].
  - apply (H12 (loan_of 2 true) alice); [reflexivity|reflexivity|reflexivity|].
    simpl. lia.
  - destruct (H21 (loan_of 1 false) root eq_refl eq_refl) as [Hok _].
    rewrite Hok; [reflexivity|by left].
  - apply H19. reflexivity.
Defined.

(** X3: for a caller whose user record exists, listUserLoans answers 403
    when the caller is neither an admin nor the user asked for; otherwise it
    answers 200 with a list that has one entry, holding the id, user_id,
    ebook_id, loan_date, due_date, return_date and is_returned of the loan,
    for exactly the loans whose user_id is the user asked for, whether or
    not that user exists.  For a caller who is not an admin, asking for
    one's own loans is the same as listLoans. *)
Theorem get_user_loans_scope (st : store) (ident uid : Z) (u : User) :
  users st !! ident = Some u →
  (truthy (is_admin u) = false → ident ≠ uid →
   get_user_loans st ident uid = (Response (msg "Accès interdit") 403, st)) ∧
  (truthy (is_admin u) = true ∨ ident = uid →
   ∃ rows,
     get_user_loans st ident uid
     = (Response
          (JObj [("loans"%string,
                  JList ((λ row : Z * Loan,
                     JObj [("id"%string, JVal (VInt row.1));
                           ("user_id"%string, JVal (VInt (user_id row.2)));
                           ("ebook_id"%string, JVal (VInt (ebook_id row.2)));
                           ("loan_date"%string, JVal (VInt (loan_date row.2)));
                           ("due_date"%string, JVal (VInt (due_date row.2)));
                           ("return_date"%string,
                            match return_date row.2 with
                            | Some t => JVal (VInt t)
                            | None => JVal VNone
                            end);
                           ("is_returned"%string, JVal (VBool (is_returned row.2)))]) <$> rows))]) 200, st) ∧
     NoDup rows ∧
     ∀ lid l, (lid, l) ∈ rows ↔ loans st !! lid = Some l ∧ user_id l = uid) ∧
  (truthy (is_admin u) = false → get_user_loans st ident ident = get_loans st ident).
Proof.
  intros Hu. unfold get_user_loans, get_loans. rewrite Hu. split; [|split].
  - intros -> Hne. apply Z.eqb_neq in Hne. by rewrite Hne.
  - intros Hok.
    assert (negb (truthy (is_admin u)) && negb (ident =? uid) = false) as ->.
    { destruct Hok as [->| ->]; [done|]. by rewrite Z.eqb_refl, andb_false_r. }
    exists (loans_of st uid). split; [reflexivity|].
    split; [apply NoDup_filter, NoDup_map_to_list|].
    intros lid l. unfold loans_of.
    by rewrite list_elem_of_filter, elem_of_map_to_list, (comm and).
  - intros ->. by rewrite Z.eqb_refl.
Qed.

Lemma get_user_loans_scope_witness :
  users st2 !! 1 = Some alice ∧
  get_user_loans st2 1 2 = (Response (msg "Accès interdit") 403, st2) ∧
  get_user_loans st2 1 1 = get_loans st2 1.
Proof.
  split; [reflexivity|].
  destruct (get_user_loans_scope st2 1 2 alice) as (H403 & _); [reflexivity|].
  destruct (get_user_loans_scope st2 1 1 alice) as (_ & _ & Hsame); [reflexivity|].
  split; [apply H403; [reflexivity|lia]|apply Hsame; reflexivity].
Defined.

(** X8: deleteLoan is refused with 403 to every caller whose user record is
    not an admin's, the owner of the loan included, and aborts with 404 for
    an admin when the loan id does not resolve; the store is unchanged. *)
Theorem delete_loan_refused (st : store) (ident loan_id : Z) (u : User) :
  users st !! ident = Some u →
  (truthy (is_admin u) = false →
   delete_loan st ident loan_id
   = (Response (msg "Accès interdit, vous n'êtes pas administrateur") 403, st)) ∧
  (truthy (is_admin u) = true → loans st !! loan_id = None →
   delete_loan st ident loan_id = (Abort 404, st)).
Proof.
  intros Hu. unfold delete_loan, _require_admin. rewrite Hu.
  split; [by intros ->|by intros -> ->].
Qed.

(** Alice may not delete her own loan. *)
Lemma delete_loan_refused_witness :
  users st2 !! 1 = Some alice ∧ user_id (loan_of 1 false) = 1 ∧
  loans st2 !! 1 = Some (loan_of 1 false) ∧
  status_of (delete_loan st2 1 1).1 = Some 403 ∧ (delete_loan st2 1 1).2 = st2.
Proof.
  split; [reflexivity|]. split; [reflexivity|]. split; [reflexivity|].
  destruct (delete_loan_refused st2 1 1 alice) as [H403 _]; [reflexivity|].
  rewrite H403; [|reflexivity]. split; reflexivity.
Defined.

Lemma size_delete_present {A : Type} (m : gmap Z A) (i : Z) (x : A) :
  m !! i = Some x → size m = S (size (delete i m)).
Proof.
  intros Hi. rewrite <-(insert_delete_id m i x) at 1 by done.
  apply map_size_insert_None, lookup_delete_eq.
Qed.

(** X7: a deleteLoan request of an admin on a loan that is not returned takes
    one copy of its ebook out of the sum of its available copies and of its
    loans that are not returned (the copy is neither available nor out any
    more); on a returned loan it keeps the sum. *)
Theorem delete_loan_loses_copy (st : store) (ident loan_id : Z) (u : User) (l : Loan)
    (s : Z) :
  users st !! ident = Some u → truthy (is_admin u) = true →
  loans st !! loan_id = Some l →
  stock (ebook_id l) st = Some s →
  stock (ebook_id l) (delete_loan st ident loan_id).2
  = Some (if is_returned l then s else s - 1).
Proof.
  intros Hu Hadm Hl Hs. unfold delete_loan, _require_admin.
  rewrite Hu, Hadm, Hl. simpl.
  unfold stock, active_loans in *. simpl.
  destruct (ebooks st !! ebook_id l) as [e|]; [|done]. simpl in *.
  injection Hs as <-. f_equal.
  rewrite map_filter_delete.
  destruct (is_returned l) eqn:Hret.
  - rewrite delete_id; [done|].
    apply map_lookup_filter_None_2. right. intros y Hy [_ ?].
    rewrite Hl in Hy. injection Hy as <-. simpl in *. congruence.
  - rewrite (size_delete_present (filter _ (loans st)) loan_id l); [lia|].
    by apply map_lookup_filter_Some_2.
Qed.

(** Root deletes the active loan 1 of the store [st1]: ebook 1 had no copy
    available and one out, and is left with none at all. *)
Lemma delete_loan_loses_copy_witness :
  stock 1 st1 = Some 1 ∧ stock 1 (delete_loan st1 2 1).2 = Some 0.
Proof.
  split; [reflexivity|].
  exact (delete_loan_loses_copy st1 2 1 root (loan_of 1 false) 1
           eq_refl eq_refl eq_refl eq_refl).
Defined.

Section with_store.

Variable read_key : value → key_reading.

(** X1: a checkout answered 201, whatever the form of its ebook_id,
    followed by the return of the new loan by the same caller, is answered
    200 and leaves the ebooks and the users of the store exactly as they
    were before the checkout; the loan stays, as a returned loan. *)
Theorem checkout_then_return (st st' : store) (ident : Z) (d : gmap string value)
    (now1 now2 now : Z) (body : json) :
  create_loan read_key st ident (Some d) now1 now2 = (Response body 201, st') →
  ∃ lid body' st'' l,
    loans st !! lid = None ∧
    update_loan st' ident lid now = (Response body' 200, st'') ∧
    ebooks st'' = ebooks st ∧ users st'' = users st ∧
    loans st'' !! lid = Some l ∧ is_returned l = true ∧ return_date l = Some now ∧
    ∀ j, j ≠ lid → loans st'' !! j = loans st !! j.
Proof.
  unfold create_loan.
  destruct (negb (truthy (get d "ebook_id"))); [done|].
  destruct (read_key (get d "ebook_id")) as [eid| |]; [|done|done].
  destruct (ebooks st !! eid) as [e|] eqn:He; [|done].
  destruct (available_copies e <? 1); [done|].
  intros [= _ <-].
  exists (next_id (loans st)). unfold update_loan. simpl.
  rewrite lookup_insert_eq. simpl. rewrite Z.eqb_refl. simpl.
  rewrite lookup_insert_eq. eexists _, _, _.
  split; [apply next_id_fresh|]. split; [reflexivity|]. simpl.
  split.
  { rewrite insert_insert_eq.
    replace (available_copies e - 1 + 1) with (available_copies e) by lia.
    apply insert_id. rewrite He. f_equal. by destruct e. }
  split; [done|]. rewrite lookup_insert_eq.
  split; [done|]. split; [done|]. split; [done|].
  intros j Hj. by rewrite !lookup_insert_ne.
Qed.

Lemma handle_users st r : users (handle read_key st r).2 = users st.
Proof.
  destruct r as [ident data now1 now2|ident lid now|ident lid]; simpl.
  - unfold create_loan. destruct data as [d|]; [|done].
    destruct (negb _); [done|].
    destruct (read_key _) as [eid| |]; [|done|done].
    destruct (ebooks st !! eid) as [e|]; [|done].
    by destruct (_ <? _).
  - unfold update_loan. destruct (loans st !! lid) as [l|]; [|done].
    destruct (negb _); [done|]. destruct (is_returned l); [done|].
    by destruct (ebooks st !! ebook_id l).
  - unfold delete_loan. destruct (_require_admin st ident); [done|].
    by destruct (loans st !! lid).
Qed.

Lemma handle_titles st r eid :
  title <$> ebooks (handle read_key st r).2 !! eid = title <$> ebooks st !! eid.
Proof.
  destruct r as [ident data now1 now2|ident lid now|ident lid]; simpl.
  - unfold create_loan. destruct data as [d|]; [|done].
    destruct (negb _); [done|].
    destruct (read_key _) as [eid'| |]; [|done|done].
    destruct (ebooks st !! eid') as [e|] eqn:He; [|done].
    destruct (_ <? _); [done|]. simpl.
    destruct (decide (eid' = eid)) as [->|Hne].
    + by rewrite lookup_insert_eq, He.
    + by rewrite lookup_insert_ne.
  - unfold update_loan. destruct (loans st !! lid) as [l|]; [|done].
    destruct (negb _); [done|]. destruct (is_returned l); [done|].
    destruct (ebooks st !! ebook_id l) as [e|] eqn:He; [|done]. simpl.
    destruct (decide (ebook_id l = eid)) as [<-|Hne].
    + by rewrite lookup_insert_eq, He.
    + by rewrite lookup_insert_ne.
  - unfold delete_loan. destruct (_require_admin st ident); [done|].
    by destruct (loans st !! lid).
Qed.

(** X4: no sequence of createLoan, returnLoan and deleteLoan requests,
    whatever the form of the ebook_id of the checkouts and however the store
    reads it, changes a user, nor creates, removes or retitles an ebook:
    only available_copies moves. *)
Theorem loan_requests_frame (st : store) (rs : list loan_request) :
  users (run read_key st rs) = users st ∧
  ∀ eid, title <$> ebooks (run read_key st rs) !! eid = title <$> ebooks st !! eid.
Proof.
  revert st. induction rs as [|r rs IH]; intros st; simpl; [done|].
  destruct (IH (handle read_key st r).2) as [Hu Ht]. split.
  - by rewrite Hu, handle_users.
  - intros eid. by rewrite Ht, handle_titles.
Qed.

(** X5: a loan request that is not answered 200 or 201 (an error response,
    an abort or an exception) leaves the whole store as it was. *)
Theorem refused_request_changes_nothing (st : store) (r : loan_request) :
  served (handle read_key st r).1 = false → (handle read_key st r).2 = st.
Proof.
  destruct r as [ident data now1 now2|ident lid now|ident lid]; simpl.
  - unfold create_loan. destruct data as [d|]; [|done].
    destruct (negb _); [done|].
    destruct (read_key _) as [eid| |]; [|done|done].
    destruct (ebooks st !! eid) as [e|]; [|done].
    by destruct (_ <? _).
  - unfold update_loan. destruct (loans st !! lid) as [l|]; [|done].
    destruct (negb _); [done|]. destruct (is_returned l); [done|].
    by destruct (ebooks st !! ebook_id l).
  - unfold delete_loan. destruct (_require_admin st ident); [done|].
    by destruct (loans st !! lid).
Qed.

(** *** Copies available and copies out *)

Lemma stock_create eid st ident data now1 now2 s :
  stock eid st = Some s →
  stock eid (create_loan read_key st ident data now1 now2).2 = Some s.
Proof.
  unfold create_loan. intros Hs.
  destruct data as [d|]; [|done].
  destruct (negb _); [done|].
  destruct (read_key _) as [eid'| |]; [|done|done].
  destruct (ebooks st !! eid') as [e'|] eqn:He'; [|done].
  destruct (_ <? _); [done|].
  unfold stock, active_loans in *. simpl.
  pose proof (next_id_fresh (loans st)) as Hfresh.
  destruct (decide (eid' = eid)) as [->|Hne].
  - rewrite lookup_insert_eq. rewrite He' in Hs. simpl in *.
    rewrite map_filter_insert_True by done.
    rewrite map_size_insert_None by (apply map_lookup_filter_None_2; by left).
    injection Hs as <-. f_equal. lia.
  - rewrite lookup_insert_ne by done.
    rewrite map_filter_insert_not'; [done| |].
    + simpl. intros [? _]. done.
    + intros y Hy. by rewrite Hfresh in Hy.
Qed.

Lemma stock_return eid st ident lid now s :
  stock eid st = Some s → stock eid (update_loan st ident lid now).2 = Some s.
Proof.
  unfold update_loan. intros Hs.
  destruct (loans st !! lid) as [l|] eqn:Hl; [|done].
  destruct (negb _); [done|].
  destruct (is_returned l) eqn:Hret; [done|].
  destruct (ebooks st !! ebook_id l) as [e'|] eqn:He'; [|done].
  unfold stock, active_loans in *. simpl.
  rewrite map_filter_insert_False by (simpl; by intros [_ ?]).
  rewrite map_filter_delete.
  destruct (decide (ebook_id l = eid)) as [<-|Hne].
  - rewrite lookup_insert_eq. rewrite He' in Hs. simpl in *.
    injection Hs as <-. f_equal.
    rewrite (size_delete_present (filter _ (loans st)) lid l); [lia|].
    by apply map_lookup_filter_Some_2.
  - rewrite lookup_insert_ne by done.
    rewrite delete_id; [done|].
    apply map_lookup_filter_None_2. right. intros y Hy [? _].
    rewrite Hl in Hy. by injection Hy as <-.
Qed.

Lemma stock_delete eid st ident lid s :
  stock eid st = Some s →
  ∃ s', stock eid (delete_loan st ident lid).2 = Some s' ∧ s' ≤ s.
Proof.
  unfold delete_loan. intros Hs.
  destruct (_require_admin st ident); [by exists s|].
  destruct (loans st !! lid) as [l|]; [|by exists s].
  unfold stock, active_loans in *. simpl.
  destruct (ebooks st !! eid) as [e|]; [|done]. simpl in *.
  injection Hs as <-. eexists. split; [reflexivity|].
  rewrite map_filter_delete, map_size_delete.
  destruct (filter _ (loans st) !! lid); simpl; lia.
Qed.

Lemma stock_handle eid st r s :
  stock eid st = Some s →
  ∃ s', stock eid (handle read_key st r).2 = Some s' ∧ s' ≤ s ∧
        (is_delete r = false → s' = s).
Proof.
  intros Hs. destruct r as [ident data now1 now2|ident lid now|ident lid]; simpl.
  - exists s. split; [by apply stock_create|]. split; [lia|done].
  - exists s. split; [by apply stock_return|]. split; [lia|done].
  - destruct (stock_delete eid st ident lid s Hs) as (s' & Hs' & Hle).
    exists s'. split; [done|]. split; [done|]. done.
Qed.

(** X6: for every ebook, the number of available copies plus the number of
    loans of it that are not returned is the same before and after any
    sequence of createLoan and returnLoan requests, whatever the form of the
    ebook_id of the checkouts and however the store reads it; with
    deleteLoan requests in the sequence it can only shrink. *)
Theorem stock_conserved (eid : Z) (st : store) (rs : list loan_request) (s : Z) :
  stock eid st = Some s →
  ∃ s', stock eid (run read_key st rs) = Some s' ∧ s' ≤ s ∧
        (Forall (λ r, is_delete r = false) rs → s' = s).
Proof.
  revert st s. induction rs as [|r rs IH]; intros st s Hs; simpl.
  - exists s. split; [done|]. split; [lia|done].
  - destruct (stock_handle eid st r s Hs) as (s1 & Hs1 & Hle1 & Heq1).
    destruct (IH _ _ Hs1) as (s2 & Hs2 & Hle2 & Heq2).
    exists s2. split; [done|]. split; [lia|].
    intros Hall. apply Forall_cons in Hall as [Hr Hrs].
    rewrite (Heq2 Hrs). by apply Heq1.
Qed.

Lemma handle_keeps_terms lid st r l :
  loans st !! lid = Some l → deleted_ok read_key lid st r = false →
  ∃ l', loans (handle read_key st r).2 !! lid = Some l' ∧
        user_id l' = user_id l ∧ ebook_id l' = ebook_id l ∧
        loan_date l' = loan_date l ∧ due_date l' = due_date l.
Proof.
  intros Hl Hdel.
  destruct r as [ident data now1 now2|ident lid' now|ident lid']; simpl.
  - unfold create_loan. destruct data as [d|]; [|by exists l].
    destruct (negb _); [by exists l|].
    destruct (read_key _) as [eid| |]; [|by exists l|by exists l].
    destruct (ebooks st !! eid) as [e|]; [|by exists l].
    destruct (_ <? _); [by exists l|]. simpl.
    exists l. rewrite lookup_insert_ne; [done|]. by eapply next_id_ne.
  - unfold update_loan.
    destruct (loans st !! lid') as [l0|] eqn:Hl0; [|by exists l].
    destruct (negb _); [by exists l|].
    destruct (is_returned l0); [by exists l|].
    destruct (ebooks st !! ebook_id l0); [|by exists l]. simpl.
    destruct (decide (lid' = lid)) as [->|Hne].
    + rewrite lookup_insert_eq. eexists. split; [done|].
      rewrite Hl in Hl0. by injection Hl0 as <-.
    + exists l. by rewrite lookup_insert_ne.
  - simpl in Hdel. unfold delete_loan in *.
    destruct (_require_admin st ident); [by exists l|].
    destruct (decide (lid' = lid)) as [->|Hne].
    + rewrite Hl in Hdel. simpl in Hdel.
      rewrite !bool_decide_eq_true_2 in Hdel by done. done.
    + destruct (loans st !! lid'); [|by exists l]. simpl.
      exists l. by rewrite lookup_delete_ne.
Qed.

(** X9: over any sequence of loan requests, up to the first request that
    deletes it (a deleteLoan of it that is answered 200; a refused one
    changes nothing), a loan keeps its owner, its ebook, its loan_date and
    its due_date: no request transfers, re-targets or extends a loan. *)
Theorem loan_terms_fixed (lid : Z) (st : store) (rs : list loan_request) (l : Loan) :
  loans st !! lid = Some l →
  ∃ l', loans (run read_key st (lifetime read_key lid st rs)) !! lid = Some l' ∧
        user_id l' = user_id l ∧ ebook_id l' = ebook_id l ∧
        loan_date l' = loan_date l ∧ due_date l' = due_date l.
Proof.
  revert st l. induction rs as [|r rs IH]; intros st l Hl; simpl.
  - by exists l.
  - destruct (deleted_ok read_key lid st r) eqn:Hdel; simpl; [by exists l|].
    destruct (handle_keeps_terms lid st r l Hl Hdel) as (l1 & Hl1 & Hu & He & Hd & Hdue).
    destruct (IH _ _ Hl1) as (l2 & Hl2 & Hu2 & He2 & Hd2 & Hdue2).
    exists l2. split; [done|]. repeat split; congruence.
Qed.

End with_store.

(** A checkout of ebook 1 under the key ["1"], then its return. *)
Lemma checkout_then_return_witness :
  ∃ st' body,
    create_loan sample_key st0 1 (Some (borrow_str "1")) 100 101
    = (Response body 201, st') ∧
    ∃ lid body' st'',
      update_loan st' 1 lid 500 = (Response body' 200, st'') ∧
      ebooks st'' = ebooks st0.
Proof.
  eassert (create_loan sample_key st0 1 (Some (borrow_str "1")) 100 101
           = (Response _ 201, _)) as Hc by reflexivity.
  destruct (checkout_then_return sample_key _ _ _ _ _ _ 500 _ Hc)
    as (lid & body' & st'' & l & _ & Hret & Heb & _).
  eexists _, _. split; [exact Hc|].
  exists lid, body', st''. split; [exact Hret|exact Heb].
Defined.

Lemma refused_request_changes_nothing_witness :
  served (handle sample_key st1 (CreateLoan 2 (Some (borrow 1)) 100 101)).1 = false ∧
  (handle sample_key st1 (CreateLoan 2 (Some (borrow 1)) 100 101)).2 = st1.
Proof.
  split; [reflexivity|].
  apply (refused_request_changes_nothing sample_key st1
           (CreateLoan 2 (Some (borrow 1)) 100 101)).
  reflexivity.
Defined.

(** Three checkouts of ebook 1 (the second and third refused), a return and
    a checkout again, under the key ["1"]: one copy in all, as at the start. *)
Lemma stock_conserved_witness :
  stock 1 st0 = Some 1 ∧
  stock 1 (run sample_key st0
             [CreateLoan 1 (Some (borrow 1)) 100 101;
              CreateLoan 2 (Some (borrow_str "1")) 110 111;
              CreateLoan 1 (Some (borrow 1)) 120 121;
              ReturnLoan 1 1 200;
              CreateLoan 2 (Some (borrow_str "1")) 300 301]) = Some 1.
Proof.
  split; [reflexivity|].
  edestruct (stock_conserved sample_key 1 st0) as (s' & Hs' & _ & Heq); [reflexivity|].
  rewrite Hs'. f_equal. apply Heq. repeat constructor.
Defined.

(** In [mixed_requests] Alice's deleteLoan of loan 1 is refused: the loan
    goes through the whole sequence. *)
Lemma loan_terms_fixed_witness :
  lifetime sample_key 1 st1 mixed_requests = mixed_requests ∧
  ∃ l', loans (run sample_key st1 mixed_requests) !! 1 = Some l' ∧
        user_id l' = 1 ∧ due_date l' = 100 + timedelta_days 14.
Proof.
  split; [reflexivity|].
  destruct (loan_terms_fixed sample_key 1 st1 mixed_requests (loan_of 1 false))
    as (l' & Hl' & Hu & _ & _ & Hdue); [reflexivity|].
  change (lifetime sample_key 1 st1 mixed_requests) with mixed_requests in Hl'.
  exists l'. split; [exact Hl'|]. split; [exact Hu|exact Hdue].
Defined.

End LoanLedger.

(** ** Users: registration, login, account management *)

Module AccountTheory.
Import StoreFacts RouteUser.

Section with_model.

Variable hash_password : value → value.
Variable check_password : value → value → bool.
Variable create_access_token : Z → Z → string.
Variable commit_user :
  gmap Z User → Z → value → value → value → option (value * value * value).

(** The one user of a given email is the one the lookup finds. *)
Lemma first_by_email_unique st e uid u :
  users st !! uid = Some u → email u = e →
  (∀ uid' u', users st !! uid' = Some u' → email u' = e → uid' = uid) →
  first_by_email st e = Some (uid, u).
Proof.
  intros Hu He Huniq. unfold first_by_email.
  destruct (head _) as [[uid' u']|] eqn:Hh.
  - apply head_Some_elem_of, list_elem_of_filter in Hh as [He' Hin].
    apply elem_of_map_to_list in Hin. simpl in He'.
    pose proof (Huniq uid' u' Hin He') as ->. congruence.
  - apply head_None in Hh.
    apply (filter_nil_not_elem_of _ _ (uid, u)) in Hh; [|done].
    destruct Hh. by apply elem_of_map_to_list.
Qed.

(** X10: createUser asks for no identity.  It answers 400 and writes nothing
    when username, email or password is absent or falsy.  Otherwise it gives
    the store a new row with the username and the email of the body and the
    is_admin of the body, false when omitted: when the store refuses the row
    the commit raises and nothing is written; when it accepts it the answer
    is 201 and one row is added under an unused id, with these three
    attributes as the store takes them, the password hashed and created_at
    the time of the request. *)
Theorem create_user_spec (st : store) (d : gmap string value) (now : Z) :
  (truthy (get d "username") = false ∨ truthy (get d "email") = false
   ∨ truthy (get d "password") = false →
   create_user hash_password commit_user st (Some d) now
   = (Response (msg "Nom d'utilisateur, email et mot de passe sont requis") 400, st)) ∧
  (truthy (get d "username") = true → truthy (get d "email") = true →
   truthy (get d "password") = true →
   commit_user (users st) (next_id (users st)) (get d "username") (get d "email")
     (default (VBool false) (d !! "is_admin")) = None →
   create_user hash_password commit_user st (Some d) now = (Raise StoreError, st)) ∧
  (truthy (get d "username") = true → truthy (get d "email") = true →
   truthy (get d "password") = true →
   ∀ n e a,
     commit_user (users st) (next_id (users st)) (get d "username") (get d "email")
       (default (VBool false) (d !! "is_admin")) = Some (n, e, a) →
     ∃ body u,
       create_user hash_password commit_user st (Some d) now
       = (Response body 201,
          {| users := <[next_id (users st) := u]> (users st);
             ebooks := ebooks st; loans := loans st |}) ∧
       users st !! next_id (users st) = None ∧
       username u = n ∧ email u = e ∧ is_admin u = a ∧
       password u = hash_password (get d "password") ∧
       created_at u = now).
Proof.
  unfold create_user, get_default. split; [|split].
  - intros [->|[->| ->]]; simpl; by rewrite ?orb_true_r.
  - intros -> -> -> ->. done.
  - intros -> -> -> n e a ->. simpl. eexists _, _.
    split; [reflexivity|]. split; [apply next_id_fresh|done].
Qed.

(** X11: the answers of createUser and of updateUser do not depend on the
    password of the request: two requests that differ in it only are
    answered alike. *)
Theorem password_not_echoed (st : store) (d : gmap string value) (p1 p2 : value) :
  (∀ now, truthy p1 = true → truthy p2 = true →
     (create_user hash_password commit_user st (Some (<["password" := p1]> d)) now).1
     = (create_user hash_password commit_user st (Some (<["password" := p2]> d)) now).1) ∧
  (∀ ident uid,
     (update_user hash_password commit_user st ident uid
        (Some (<["password" := p1]> d))).1
     = (update_user hash_password commit_user st ident uid
          (Some (<["password" := p2]> d))).1).
Proof.
  split.
  - intros now H1 H2. unfold create_user, get, get_default.
    rewrite !lookup_insert_eq, !lookup_insert_ne by done. simpl.
    rewrite H1, H2. destruct (_ || _); [done|].
    by destruct (commit_user _ _ _ _ _) as [[[n e] a]|].
  - intros ident uid. unfold update_user, get_default.
    destruct (_require_admin st ident (Some uid)); [done|].
    destruct (users st !! uid); [|done].
    rewrite !lookup_insert_eq, !lookup_insert_ne by done.
    by destruct (commit_user _ _ _ _ _) as [[[n e] a]|].
Qed.

(** X12: login answers 200 only to a request whose email is that of a stored
    user and whose password passes the check against that user's stored
    password; the token is then made for this user's id with an expiry of one
    hour, and the store is unchanged. *)
Theorem login_sound (st st' : store) (data : option (gmap string value)) (body : json) :
  login check_password create_access_token st data = (Response body 200, st') →
  ∃ d uid u,
    data = Some d ∧ users st !! uid = Some u ∧
    email u = get d "email" ∧
    check_password (get d "password") (password u) = true ∧
    body = JObj [("access_token"%string,
                  JStr (create_access_token uid (3600 * 1000000)))] ∧
    st' = st.
Proof.
  unfold login. destruct data as [d|]; [|done].
  destruct (_ || _); [done|].
  destruct (first_by_email st (get d "email")) as [[uid u]|] eqn:Hf; [|done].
  destruct (check_password _ _) eqn:Hc; [|done].
  intros [= <- <-]. exists d, uid, u.
  unfold first_by_email in Hf.
  apply head_Some_elem_of, list_elem_of_filter in Hf as [He Hin].
  apply elem_of_map_to_list in Hin. done.
Qed.

(** X13: when one stored user only has the email of the request and the
    password passes the check against that user's stored password, login
    answers 200 with the token made for that user's id. *)
Theorem login_complete (st : store) (d : gmap string value) (uid : Z) (u : User) :
  truthy (get d "email") = true → truthy (get d "password") = true →
  users st !! uid = Some u → email u = get d "email" →
  (∀ uid' u', users st !! uid' = Some u' → email u' = get d "email" → uid' = uid) →
  check_password (get d "password") (password u) = true →
  login check_password create_access_token st (Some d)
  = (Response (JObj [("access_token"%string,
                      JStr (create_access_token uid (3600 * 1000000)))]) 200, st).
Proof.
  intros He Hp Hu Hem Huniq Hc. unfold login. rewrite He, Hp. simpl.
  rewrite (first_by_email_unique st _ uid u Hu Hem Huniq). by rewrite Hc.
Qed.

(** X14: a registration with truthy username, email and password, whose row
    the store accepts keeping the email as given, and whose email no stored
    user has, is answered 201; a login with the same body is then answered
    200 with the token of the new user, provided the check accepts a
    password against its own hash. *)
Theorem register_then_login (st : store) (d : gmap string value) (now : Z)
    (n a : value) :
  truthy (get d "username") = true → truthy (get d "email") = true →
  truthy (get d "password") = true →
  commit_user (users st) (next_id (users st)) (get d "username") (get d "email")
    (default (VBool false) (d !! "is_admin")) = Some (n, get d "email", a) →
  (∀ uid' u', users st !! uid' = Some u' → email u' ≠ get d "email") →
  check_password (get d "password") (hash_password (get d "password")) = true →
  ∃ body st',
    create_user hash_password commit_user st (Some d) now = (Response body 201, st') ∧
    login check_password create_access_token st' (Some d)
    = (Response (JObj [("access_token"%string,
                        JStr (create_access_token (next_id (users st)) (3600 * 1000000)))])
         200, st').
Proof.
  intros Hn He Hp Hcommit Hfree Hc. unfold create_user, get_default.
  rewrite Hn, He, Hp, Hcommit. simpl.
  eexists _, _. split; [reflexivity|].
  unfold login. rewrite He, Hp. simpl.
  rewrite (first_by_email_unique _ _ (next_id (users st))
             (new_User n (get d "email") (hash_password (get d "password")) a now)).
  - unfold new_User. simpl. by rewrite Hc.
  - simpl. apply lookup_insert_eq.
  - done.
  - simpl. intros uid' u'. rewrite lookup_insert_Some.
    intros [[<- _]|[_ Hu']] He'; [done|]. by destruct (Hfree uid' u' Hu').
Qed.

End with_model.

Lemma sample_users uid u :
  users st0 !! uid = Some u → uid = 1 ∧ u = alice ∨ uid = 2 ∧ u = root.
Proof.
  unfold st0. simpl. rewrite !lookup_insert_Some, lookup_empty.
  intros [[<- <-]|[_ [[<- <-]|[_ ?]]]]; [by left|by right|done].
Qed.

(** Carol registers with a null is_admin, which the sample store takes as
    false; a registration with is_admin ["yes"] makes the commit raise. *)
Lemma create_user_spec_witness :
  (∃ body u,
     create_user plain_hash sample_commit_user st0
       (Some (<["is_admin" := VNone]> (registration "carol" "carol@example.org" "pw"))) 50
     = (Response body 201,
        {| users := <[next_id (users st0) := u]> (users st0);
           ebooks := ebooks st0; loans := loans st0 |}) ∧
     is_admin u = VBool false ∧ password u = VStr "pw") ∧
  create_user plain_hash sample_commit_user st0
    (Some (<["is_admin" := VStr "yes"]> (registration "carol" "carol@example.org" "pw"))) 50
  = (Raise StoreError, st0).
Proof.
  split.
  - destruct (create_user_spec plain_hash sample_commit_user st0
                (<["is_admin" := VNone]> (registration "carol" "carol@example.org" "pw")) 50)
      as (_ & _ & Hok).
    destruct (Hok eq_refl eq_refl eq_refl (VStr "carol") (VStr "carol@example.org")
                (VBool false) eq_refl)
      as (body & u & Heq & _ & _ & _ & Ha & Hp & _).
    exists body, u. split; [exact Heq|]. split; [exact Ha|exact Hp].
  - destruct (create_user_spec plain_hash sample_commit_user st0
                (<["is_admin" := VStr "yes"]> (registration "carol" "carol@example.org" "pw"))
                50) as (_ & Hno & _).
    apply Hno; reflexivity.
Defined.

Lemma password_not_echoed_witness :
  truthy (VStr "pw") = true ∧ truthy (VStr "other") = true ∧
  (create_user plain_hash sample_commit_user st0
     (Some (<["password" := VStr "pw"]> (registration "carol" "carol@example.org" "x"))) 50).1
  = (create_user plain_hash sample_commit_user st0
       (Some (<["password" := VStr "other"]> (registration "carol" "carol@example.org" "x")))
       50).1.
Proof.
  split; [reflexivity|]. split; [reflexivity|].
  destruct (password_not_echoed plain_hash sample_commit_user st0
              (registration "carol" "carol@example.org" "x") (VStr "pw") (VStr "other"))
    as [Hc _].
  apply Hc; reflexivity.
Defined.

Lemma login_sound_witness :
  login plain_check fixed_token st0 (Some (credentials "alice@example.org" "h1"))
  = (Response (JObj [("access_token"%string, JStr "token")]) 200, st0) ∧
  ∃ uid u, users st0 !! uid = Some u ∧ email u = VStr "alice@example.org" ∧
           plain_check (VStr "h1") (password u) = true.
Proof.
  assert (login plain_check fixed_token st0 (Some (credentials "alice@example.org" "h1"))
          = (Response (JObj [("access_token"%string, JStr "token")]) 200, st0)) as Hl
    by reflexivity.
  split; [exact Hl|].
  destruct (login_sound plain_check fixed_token _ _ _ _ Hl)
    as (d & uid & u & Hd & Hu & He & Hc & _).
  injection Hd as <-. exists uid, u. split; [exact Hu|]. split; [exact He|exact Hc].
Defined.

Lemma login_complete_witness :
  login plain_check fixed_token st0 (Some (credentials "root@example.org" "h2"))
  = (Response (JObj [("access_token"%string, JStr (fixed_token 2 (3600 * 1000000)))]) 200,
     st0).
Proof.
  apply (login_complete plain_check fixed_token st0
           (credentials "root@example.org" "h2") 2 root); try reflexivity.
  intros uid' u' Hu' He. apply sample_users in Hu' as [[_ ->]|[-> _]]; [discriminate He|done].
Defined.

Lemma register_then_login_witness :
  ∃ body st',
    create_user plain_hash sample_commit_user st0
      (Some (registration "carol" "carol@example.org" "pw")) 50
    = (Response body 201, st') ∧
    login plain_check fixed_token st' (Some (registration "carol" "carol@example.org" "pw"))
    = (Response (JObj [("access_token"%string,
                        JStr (fixed_token (next_id (users st0)) (3600 * 1000000)))]) 200,
       st').
Proof.
  apply (register_then_login plain_hash plain_check fixed_token sample_commit_user st0
           (registration "carol" "carol@example.org" "pw") 50
           (VStr "carol") (VBool false)); try reflexivity.
  intros uid' u' Hu' He. apply sample_users in Hu' as [[_ ->]|[_ ->]]; discriminate He.
Defined.

(** *** Reading and removing accounts *)

(** X15: for a caller whose user record exists, getUser answers 403 to a
    caller who is neither an admin nor the user asked for, whether or not
    that user exists; it aborts with 404 only for an admin, or for the
    user's own id, when no such user is stored; otherwise it answers 200
    with the user's id, username, email, is_admin and created_at, and
    nothing else. *)
Theorem get_user_access (st : store) (ident uid : Z) (u : User) :
  users st !! ident = Some u →
  (truthy (is_admin u) = false → ident ≠ uid →
   get_user st ident uid
   = (Response
        (msg "Accès interdit, vous n'êtes pas propriétaire du compte ou administrateur")
        403, st)) ∧
  (truthy (is_admin u) = true → users st !! uid = None →
   get_user st ident uid = (Abort 404, st)) ∧
  (truthy (is_admin u) = true ∨ ident = uid →
   ∀ t, users st !! uid = Some t →
     get_user st ident uid
     = (Response
          (JObj [("id"%string, JVal (VInt uid));
                 ("username"%string, JVal (username t));
                 ("email"%string, JVal (email t));
                 ("is_admin"%string, JVal (is_admin t));
                 ("created_at"%string, JVal (VInt (created_at t)))]) 200, st)).
Proof.
  intros Hu. unfold get_user, _require_admin. rewrite Hu. split; [|split].
  - intros -> Hne. apply Z.eqb_neq in Hne. by rewrite Hne.
  - by intros -> ->.
  - intros Hok t Ht.
    assert (negb (truthy (is_admin u) || (ident =? uid)) = false) as ->.
    { destruct Hok as [->| ->]; [done|]. by rewrite Z.eqb_refl, orb_true_r. }
    rewrite Ht. reflexivity.
Qed.

(** Alice is answered 403 for root's id and for an id that no user has, and
    reads her own record. *)
Lemma get_user_access_witness :
  users st0 !! 1 = Some alice ∧ users st0 !! 9 = None ∧
  status_of (get_user st0 1 2).1 = Some 403 ∧
  (get_user st0 1 9).1 = (get_user st0 1 2).1 ∧
  get_user st0 1 1
  = (Response
       (JObj [("id"%string, JVal (VInt 1));
              ("username"%string, JVal (VStr "alice"));
              ("email"%string, JVal (VStr "alice@example.org"));
              ("is_admin"%string, JVal (VBool false));
              ("created_at"%string, JVal (VInt 0))]) 200, st0).
Proof.
  split; [reflexivity|]. split; [reflexivity|].
  destruct (get_user_access st0 1 2 alice) as (H2 & _); [reflexivity|].
  destruct (get_user_access st0 1 9 alice) as (H9 & _); [reflexivity|].
  destruct (get_user_access st0 1 1 alice) as (_ & _ & H1); [reflexivity|].
  rewrite H2, H9 by (reflexivity || lia).
  split; [reflexivity|]. split; [reflexivity|].
  apply (H1 (or_intror eq_refl) alice). reflexivity.
Defined.

(** X16: for a caller whose user record exists, listUsers answers 403 unless
    the caller is an admin, and then 200 with one entry for each stored
    user and no other. *)
Theorem get_users_scope (st : store) (ident : Z) (u : User) :
  users st !! ident = Some u →
  (truthy (is_admin u) = false →
   get_users st ident
   = (Response (msg "Accès interdit, vous n'êtes pas administrateur") 403, st)) ∧
  (truthy (is_admin u) = true →
   ∃ rows,
     get_users st ident
     = (Response (JObj [("users"%string, JList (user_json <$> rows))]) 200, st) ∧
     NoDup rows ∧ ∀ uid t, (uid, t) ∈ rows ↔ users st !! uid = Some t).
Proof.
  intros Hu. unfold get_users, _require_admin. rewrite Hu. split.
  - by intros ->.
  - intros ->. simpl. exists (map_to_list (users st)).
    split; [done|]. split; [apply NoDup_map_to_list|].
    intros uid t. apply elem_of_map_to_list.
Qed.

Lemma get_users_scope_witness :
  users st0 !! 1 = Some alice ∧ users st0 !! 2 = Some root ∧
  status_of (get_users st0 1).1 = Some 403 ∧
  ∃ rows,
    get_users st0 2
    = (Response (JObj [("users"%string, JList (user_json <$> rows))]) 200, st0) ∧
    (1, alice) ∈ rows ∧ (2, root) ∈ rows.
Proof.
  split; [reflexivity|]. split; [reflexivity|].
  destruct (get_users_scope st0 1 alice) as [H403 _]; [reflexivity|].
  destruct (get_users_scope st0 2 root) as [_ Hok]; [reflexivity|].
  rewrite H403 by reflexivity. split; [reflexivity|].
  destruct Hok as (rows & Heq & _ & Hin); [reflexivity|].
  exists rows. split; [exact Heq|]. split; apply Hin; reflexivity.
Defined.

(** X17: deleteUser, for a caller who is an admin or the user itself, on a
    stored user who owns no loan (what becomes of the loans of a removed
    user is the store's affair), answers 200 and removes that row and
    nothing else.  The identity of the removed user then resolves no more:
    getCurrentUser aborts with 404, the user handler's predicate answers
    404, and listLoans raises. *)
Theorem delete_user_effects (st : store) (ident uid : Z) (caller target : User) :
  users st !! ident = Some caller →
  truthy (is_admin caller) = true ∨ ident = uid →
  users st !! uid = Some target →
  (∀ lid l, loans st !! lid = Some l → user_id l ≠ uid) →
  ∃ st',
    delete_user st ident uid
    = (Response (msg "Utilisateur supprimé avec succès") 200, st') ∧
    users st' = delete uid (users st) ∧
    ebooks st' = ebooks st ∧ loans st' = loans st ∧
    get_current_user st' uid = (Abort 404, st') ∧
    (∀ other, _require_admin st' uid other
              = Some (Response (msg "Utilisateur non trouvé") 404)) ∧
    RouteLoan.get_loans st' uid = (Raise AttributeError, st').
Proof.
  intros Hc Hok Ht _. unfold delete_user, _require_admin at 1. rewrite Hc.
  assert (negb (truthy (is_admin caller) || (ident =? uid)) = false) as ->.
  { destruct Hok as [->| ->]; [done|]. by rewrite Z.eqb_refl, orb_true_r. }
  rewrite Ht. eexists. split; [reflexivity|].
  unfold get_current_user, _require_admin, RouteLoan.get_loans. simpl.
  rewrite lookup_delete_eq. done.
Qed.

(** Alice, who has no loan in [st0], removes her own account. *)
Lemma delete_user_effects_witness :
  ∃ st',
    delete_user st0 1 1 = (Response (msg "Utilisateur supprimé avec succès") 200, st') ∧
    users st' !! 1 = None ∧ users st' !! 2 = Some root ∧
    RouteLoan.get_loans st' 1 = (Raise AttributeError, st').
Proof.
  destruct (delete_user_effects st0 1 1 alice alice)
    as (st' & Heq & Hus & _ & _ & _ & _ & Hraise);
    [reflexivity|by right|reflexivity| |].
  { intros lid l Hl. vm_compute in Hl. discriminate Hl. }
  exists st'. split; [exact Heq|]. rewrite Hus.
  split; [reflexivity|]. split; [reflexivity|exact Hraise].
Defined.

End AccountTheory.

(** ** Categories *)

Module CategoryTheory.
Import StoreFacts RouteCategory.

(** X19: a category request that writes (create, update, delete), from a
    caller whose identity resolves to no user or to a user who is not an
    admin, is answered 403 and changes nothing, whatever its body and
    whether or not the category exists. *)
Theorem category_writes_need_admin
    (commit_category : gmap Z Category → Z → Category → option Category)
    (lib : library) (r : category_request) :
  (∀ u, users (tables lib) !! requester r = Some u → truthy (is_admin u) = false) →
  handle commit_category lib r
  = (Response (msg "Accès interdit, vous n'êtes pas administrateur") 403, lib).
Proof.
  intros Hna.
  assert (_require_admin (tables lib) (requester r)
          = Some (Response (msg "Accès interdit, vous n'êtes pas administrateur") 403))
    as Hreq.
  { unfold _require_admin. destruct (users (tables lib) !! requester r) as [u|]; [|done].
    by rewrite (Hna u eq_refl). }
  destruct r as [ident data|ident cid data|ident cid]; simpl in *;
    unfold create_category, update_category, delete_category; by rewrite Hreq.
Qed.

(** Alice may not remove category 1, nor a category that does not exist. *)
Lemma category_writes_need_admin_witness :
  handle sample_commit_category lib0 (DeleteCategory 1 1)
  = (Response (msg "Accès interdit, vous n'êtes pas administrateur") 403, lib0) ∧
  handle sample_commit_category lib0 (UpdateCategory 7 9 None)
  = (Response (msg "Accès interdit, vous n'êtes pas administrateur") 403, lib0).
Proof.
  split.
  - apply (category_writes_need_admin sample_commit_category lib0 (DeleteCategory 1 1)).
    intros u Hu. vm_compute in Hu. by injection Hu as <-.
  - apply (category_writes_need_admin sample_commit_category lib0 (UpdateCategory 7 9 None)).
    intros u Hu. vm_compute in Hu. discriminate Hu.
Defined.

Lemma or_empty_idemp (v : value) : or_empty (or_empty v) = or_empty v.
Proof. unfold or_empty. by destruct (truthy v) eqn:Hv; [rewrite Hv|]. Qed.

Lemma admin_passes (st : store) (ident : Z) (u : User) :
  users st !! ident = Some u → truthy (is_admin u) = true →
  _require_admin st ident = None.
Proof. intros Hu Ha. unfold _require_admin. by rewrite Hu, Ha. Qed.

(** X20: createCategory by an admin answers 400 and writes nothing when the
    name is absent or falsy; otherwise it answers 201 and adds one category
    under an unused id, leaving the others and the store alone, and
    getCategory on that id then answers 200 with the name given and with the
    description given, or the empty string when it is absent or falsy. *)
Theorem create_category_then_get (lib : library) (ident : Z) (u : User)
    (d : gmap string value) :
  users (tables lib) !! ident = Some u → truthy (is_admin u) = true →
  (truthy (get d "name") = false →
   create_category lib ident (Some d)
   = (Response (msg "Le nom de la catégorie est requis") 400, lib)) ∧
  (truthy (get d "name") = true →
   ∃ body cid lib',
     create_category lib ident (Some d) = (Response body 201, lib') ∧
     categories lib !! cid = None ∧
     (∀ j, j ≠ cid → categories lib' !! j = categories lib !! j) ∧
     tables lib' = tables lib ∧
     get_category lib' cid
     = (Response
          (JObj [("id"%string, JInt cid);
                 ("name"%string, JVal (get d "name"));
                 ("description"%string,
                  JVal (if truthy (get d "description")
                        then get d "description" else VStr ""))])
          200, lib')).
Proof.
  intros Hu Ha. unfold create_category. rewrite (admin_passes _ _ _ Hu Ha). split.
  - by intros ->.
  - intros ->. simpl. eexists _, (next_id (categories lib)), _.
    split; [reflexivity|]. split; [apply next_id_fresh|].
    split; [intros j Hj; simpl; by rewrite lookup_insert_ne|]. split; [done|].
    unfold get_category. simpl. rewrite lookup_insert_eq.
    unfold category_json. simpl. by rewrite or_empty_idemp.
Qed.

Lemma create_category_then_get_witness :
  ∃ body cid lib',
    create_category lib0 2 (Some {[ "name"%string := VStr "Poetry" ]})
    = (Response body 201, lib') ∧
    get_category lib' cid
    = (Response (JObj [("id"%string, JInt cid);
                       ("name"%string, JVal (VStr "Poetry"));
                       ("description"%string, JVal (VStr ""))]) 200, lib').
Proof.
  destruct (create_category_then_get lib0 2 root {[ "name"%string := VStr "Poetry" ]})
    as [_ Hok]; [reflexivity|reflexivity|].
  destruct Hok as (body & cid & lib' & Heq & _ & _ & _ & Hget); [reflexivity|].
  exists body, cid, lib'. split; [exact Heq|exact Hget].
Defined.

(** X21: updateCategory by an admin on an existing category, with a JSON
    object as body, hands the store a row whose name is the one of the body,
    or the stored one when omitted, and whose description is the one of the
    body, or the stored one when omitted, the empty string standing for a
    stored description that is null or empty; the handler does not validate
    the name.  When the store refuses the row the commit raises and nothing
    changes; when it accepts it the answer is 200 and that category only is
    rewritten, as the store takes it. *)
Theorem update_category_merge
    (commit_category : gmap Z Category → Z → Category → option Category)
    (lib : library) (ident category_id : Z) (u : User)
    (c : Category) (d : gmap string value) :
  users (tables lib) !! ident = Some u → truthy (is_admin u) = true →
  categories lib !! category_id = Some c →
  ∃ m,
    (d !! "name" = None → name m = name c) ∧
    (∀ v, d !! "name" = Some v → name m = v) ∧
    (d !! "description" = None → truthy (description c) = true →
     description m = description c) ∧
    (d !! "description" = None → truthy (description c) = false →
     description m = VStr "") ∧
    (∀ v, d !! "description" = Some v → description m = v) ∧
    (commit_category (categories lib) category_id m = None →
     update_category commit_category lib ident category_id (Some d)
     = (Raise StoreError, lib)) ∧
    (∀ c', commit_category (categories lib) category_id m = Some c' →
     update_category commit_category lib ident category_id (Some d)
     = (Response
          (JObj [("msg"%string, JVal (VStr "Catégorie mise à jour"));
                 ("category"%string,
                  JObj [("id"%string, JVal (VInt category_id));
                        ("name"%string, JVal (name c'));
                        ("description"%string, JVal (description c'))])])
          200,
        {| tables := tables lib;
           categories := <[category_id := c']> (categories lib) |})).
Proof.
  intros Hu Ha Hc. unfold update_category.
  rewrite (admin_passes _ _ _ Hu Ha), Hc.
  exists {| name := get_default d "name" (name c);
            description := get_default d "description" (or_empty (description c)) |}.
  simpl. unfold get_default, or_empty.
  split; [by intros ->|]. split; [by intros v ->|].
  split; [by intros -> ->|]. split; [by intros -> ->|]. split; [by intros v ->|].
  split; [by intros ->|]. by intros c' ->.
Qed.

(** On a store where the name is required, root empties the name of
    category 1, whose null description becomes the empty string; with a null
    name the commit raises. *)
Lemma update_category_merge_witness :
  update_category sample_commit_category lib0 2 1 (Some {[ "name"%string := VStr "" ]})
  = (Response
       (JObj [("msg"%string, JVal (VStr "Catégorie mise à jour"));
              ("category"%string,
               JObj [("id"%string, JVal (VInt 1));
                     ("name"%string, JVal (VStr ""));
                     ("description"%string, JVal (VStr ""))])])
       200,
     {| tables := tables lib0;
        categories := <[1 := {| name := VStr ""; description := VStr "" |}]>
                        (categories lib0) |}) ∧
  update_category sample_commit_category lib0 2 1 (Some {[ "name"%string := VNone ]})
  = (Raise StoreError, lib0).
Proof.
  split.
  - destruct (update_category_merge sample_commit_category lib0 2 1 root
                {| name := VStr "Fiction"; description := VNone |}
                {[ "name"%string := VStr "" ]})
      as (m & _ & Hn & _ & Hd & _ & _ & Hok); [reflexivity|reflexivity|reflexivity|].
    specialize (Hn (VStr "") eq_refl). specialize (Hd eq_refl eq_refl).
    destruct m as [mn md]. simpl in Hn, Hd. subst mn md.
    apply (Hok {| name := VStr ""; description := VStr "" |}). reflexivity.
  - destruct (update_category_merge sample_commit_category lib0 2 1 root
                {| name := VStr "Fiction"; description := VNone |}
                {[ "name"%string := VNone ]})
      as (m & _ & Hn & _ & Hd & _ & Hno & _); [reflexivity|reflexivity|reflexivity|].
    specialize (Hn VNone eq_refl). specialize (Hd eq_refl eq_refl).
    destruct m as [mn md]. simpl in Hn, Hd. subst mn md.
    apply Hno. reflexivity.
Defined.

(** X22: deleteCategory by an admin aborts with 404 when the category does
    not exist; otherwise it answers 200 and removes that category and
    nothing else, and getCategory on its id then aborts with 404. *)
Theorem delete_category_then_get (lib : library) (ident category_id : Z) (u : User) :
  users (tables lib) !! ident = Some u → truthy (is_admin u) = true →
  (categories lib !! category_id = None →
   delete_category lib ident category_id = (Abort 404, lib)) ∧
  (∀ c, categories lib !! category_id = Some c →
   ∃ lib',
     delete_category lib ident category_id
     = (Response (msg "Catégorie supprimée") 200, lib') ∧
     tables lib' = tables lib ∧
     (∀ j, j ≠ category_id → categories lib' !! j = categories lib !! j) ∧
     get_category lib' category_id = (Abort 404, lib')).
Proof.
  intros Hu Ha. unfold delete_category. rewrite (admin_passes _ _ _ Hu Ha). split.
  - by intros ->.
  - intros c ->. eexists. split; [reflexivity|]. split; [done|].
    split; [intros j Hj; simpl; by rewrite lookup_delete_ne|].
    unfold get_category. simpl. by rewrite lookup_delete_eq.
Qed.

Lemma delete_category_then_get_witness :
  ∃ lib',
    delete_category lib0 2 1 = (Response (msg "Catégorie supprimée") 200, lib') ∧
    get_category lib' 1 = (Abort 404, lib') ∧
    delete_category lib' 2 1 = (Abort 404, lib').
Proof.
  destruct (delete_category_then_get lib0 2 1 root) as [_ Hok];
    [reflexivity|reflexivity|].
  destruct (Hok {| name := VStr "Fiction"; description := VNone |})
    as (lib' & Heq & Ht & _ & Hget); [reflexivity|].
  exists lib'. split; [exact Heq|]. split; [exact Hget|].
  destruct (delete_category_then_get lib' 2 1 root) as [H404 _].
  - rewrite Ht. reflexivity.
  - reflexivity.
  - apply H404. unfold get_category in Hget.
    by destruct (categories lib' !! 1).
Defined.

(** X23: listCategories and getCategory ask for no identity and change
    nothing.  The list has one entry for each stored category and no other;
    the description of an entry is never null: it is the stored description
    when that is truthy, and the empty string otherwise. *)
Theorem categories_public (lib : library) :
  (∃ rows,
     get_categories lib
     = (Response (JObj [("categories"%string, JList (category_json <$> rows))]) 200, lib) ∧
     NoDup rows ∧
     ∀ cid c, (cid, c) ∈ rows ↔ categories lib !! cid = Some c) ∧
  (∀ cid, (get_category lib cid).2 = lib) ∧
  (∀ cid c, ∃ dsc,
     category_json (cid, c)
     = JObj [("id"%string, JInt cid); ("name"%string, JVal (name c));
             ("description"%string, JVal dsc)] ∧
     dsc ≠ VNone ∧
     (truthy (description c) = true → dsc = description c) ∧
     (truthy (description c) = false → dsc = VStr "")).
Proof.
  split; [|split].
  - exists (map_to_list (categories lib)). split; [done|].
    split; [apply NoDup_map_to_list|]. intros cid c. apply elem_of_map_to_list.
  - intros cid. unfold get_category. by destruct (categories lib !! cid).
  - intros cid c. exists (or_empty (description c)). split; [done|].
    unfold or_empty. destruct (truthy (description c)) eqn:Hd.
    + split; [|done]. intros Heq. by rewrite Heq in Hd.
    + done.
Qed.

End CategoryTheory.

(** ** Listings after a checkout, and the remaining exceptions *)

Module EdgeTheory.
Import StoreFacts.

(** X24: after a checkout answered 201, whatever the form of its ebook_id,
    the new loan, not returned, has an entry with its id, user_id, ebook_id,
    loan_date, due_date, return_date and is_returned in the list that
    listLoans gives to the caller (whose user record exists, admin or not)
    and in the list that listUserLoans gives for the caller's id. *)
Theorem checkout_is_listed (read_key : value → key_reading) (st st' : store)
    (ident : Z) (u : User) (d : gmap string value) (now1 now2 : Z) (body : json) :
  users st !! ident = Some u →
  RouteLoan.create_loan read_key st ident (Some d) now1 now2 = (Response body 201, st') →
  ∃ lid l rows rows',
    loans st !! lid = None ∧ loans st' !! lid = Some l ∧
    user_id l = ident ∧ is_returned l = false ∧
    RouteLoan.get_loans st' ident
    = (Response
         (JObj [("loans"%string,
                 JList ((λ row : Z * Loan,
                     JObj [("id"%string, JVal (VInt row.1));
                           ("user_id"%string, JVal (VInt (user_id row.2)));
                           ("ebook_id"%string, JVal (VInt (ebook_id row.2)));
                           ("loan_date"%string, JVal (VInt (loan_date row.2)));
                           ("due_date"%string, JVal (VInt (due_date row.2)));
                           ("return_date"%string,
                            match return_date row.2 with
                            | Some t => JVal (VInt t)
                            | None => JVal VNone
                            end);
                           ("is_returned"%string, JVal (VBool (is_returned row.2)))]) <$> rows))]) 200, st') ∧
    (lid, l) ∈ rows ∧
    RouteLoan.get_user_loans st' ident ident
    = (Response
         (JObj [("loans"%string,
                 JList ((λ row : Z * Loan,
                     JObj [("id"%string, JVal (VInt row.1));
                           ("user_id"%string, JVal (VInt (user_id row.2)));
                           ("ebook_id"%string, JVal (VInt (ebook_id row.2)));
                           ("loan_date"%string, JVal (VInt (loan_date row.2)));
                           ("due_date"%string, JVal (VInt (due_date row.2)));
                           ("return_date"%string,
                            match return_date row.2 with
                            | Some t => JVal (VInt t)
                            | None => JVal VNone
                            end);
                           ("is_returned"%string, JVal (VBool (is_returned row.2)))]) <$> rows'))]) 200, st') ∧
    (lid, l) ∈ rows'.
Proof.
  intros Hu. unfold RouteLoan.create_loan.
  destruct (negb _); [done|].
  destruct (read_key _) as [eid| |]; [|done|done].
  destruct (ebooks st !! eid) as [e|]; [|done].
  destruct (_ <? _); [done|].
  intros [= _ <-].
  set (l := new_Loan ident eid now1 (now2 + timedelta_days 14)).
  set (lid := next_id (loans st)).
  assert ((lid, l) ∈ map_to_list (<[lid := l]> (loans st))) as Hin.
  { apply elem_of_map_to_list, lookup_insert_eq. }
  assert ((lid, l) ∈ filter (λ row, user_id row.2 = ident)
                       (map_to_list (<[lid := l]> (loans st)))) as Hmine.
  { by apply list_elem_of_filter. }
  unfold RouteLoan.get_loans, RouteLoan.get_user_loans. simpl. rewrite Hu.
  rewrite Z.eqb_refl, andb_false_r.
  exists lid, l. eexists _, _. split; [apply next_id_fresh|].
  split; [apply lookup_insert_eq|]. split; [done|]. split; [done|].
  split; [reflexivity|]. split; [by destruct (truthy (is_admin u))|].
  split; [reflexivity|done].
Qed.

Lemma checkout_is_listed_witness :
  ∃ st' lid l rows,
    (RouteLoan.create_loan sample_key st0 1 (Some (borrow_str "1")) 100 101).2 = st' ∧
    loans st' !! lid = Some l ∧ user_id l = 1 ∧
    RouteLoan.get_loans st' 1
    = (Response
         (JObj [("loans"%string,
                 JList ((λ row : Z * Loan,
                     JObj [("id"%string, JVal (VInt row.1));
                           ("user_id"%string, JVal (VInt (user_id row.2)));
                           ("ebook_id"%string, JVal (VInt (ebook_id row.2)));
                           ("loan_date"%string, JVal (VInt (loan_date row.2)));
                           ("due_date"%string, JVal (VInt (due_date row.2)));
                           ("return_date"%string,
                            match return_date row.2 with
                            | Some t => JVal (VInt t)
                            | None => JVal VNone
                            end);
                           ("is_returned"%string, JVal (VBool (is_returned row.2)))]) <$> rows))]) 200, st') ∧
    (lid, l) ∈ rows.
Proof.
  eassert (RouteLoan.create_loan sample_key st0 1 (Some (borrow_str "1")) 100 101
           = (Response _ 201, _)) as Hc by reflexivity.
  destruct (checkout_is_listed sample_key st0 _ 1 alice (borrow_str "1") 100 101 _
              eq_refl Hc)
    as (lid & l & rows & rows' & _ & Hl & Hu & _ & Hget & Hin & _).
  eexists _, lid, l, rows. split; [reflexivity|].
  split; [exact Hl|]. split; [exact Hu|]. split; [exact Hget|exact Hin].
Defined.

(** X25: the other places where an exception leaves a handler, the store
    staying as it was: getLoan on an existing loan and listUserLoans, for a
    bearer identity that resolves to no user; returnLoan by the owner of an
    active loan whose ebook row is missing; updateUser, createCategory and
    updateCategory, past their authorization check, with a body that
    decodes to [None]. *)
Theorem other_faults (st : store) (ident : Z) :
  (users st !! ident = None →
   (∀ loan_id l, loans st !! loan_id = Some l →
      RouteLoan.get_loan st ident loan_id = (Raise AttributeError, st)) ∧
   (∀ uid, RouteLoan.get_user_loans st ident uid = (Raise AttributeError, st))) ∧
  (∀ loan_id l now,
     loans st !! loan_id = Some l → user_id l = ident → is_returned l = false →
     ebooks st !! ebook_id l = None →
     RouteLoan.update_loan st ident loan_id now = (Raise AttributeError, st)) ∧
  (∀ u, users st !! ident = Some u →
     (∀ hash_password commit_user uid t,
        truthy (is_admin u) = true ∨ ident = uid → users st !! uid = Some t →
        RouteUser.update_user hash_password commit_user st ident uid None
        = (Raise AttributeError, st)) ∧
     (∀ cats,
        truthy (is_admin u) = true →
        RouteCategory.create_category
          {| RouteCategory.tables := st; RouteCategory.categories := cats |} ident None
        = (Raise AttributeError,
           {| RouteCategory.tables := st; RouteCategory.categories := cats |})) ∧
     (∀ commit_category cats cid c,
        truthy (is_admin u) = true → cats !! cid = Some c →
        RouteCategory.update_category commit_category
          {| RouteCategory.tables := st; RouteCategory.categories := cats |} ident cid None
        = (Raise AttributeError,
           {| RouteCategory.tables := st; RouteCategory.categories := cats |}))).
Proof.
  split; [|split].
  - intros Hu. split.
    + intros loan_id l Hl. unfold RouteLoan.get_loan. by rewrite Hl, Hu.
    + intros uid. unfold RouteLoan.get_user_loans. by rewrite Hu.
  - intros loan_id l now Hl <- Hret He. unfold RouteLoan.update_loan.
    by rewrite Hl, Z.eqb_refl, Hret, He.
  - intros u Hu. split; [|split].
    + intros hp cu uid t Hok Ht. unfold RouteUser.update_user, RouteUser._require_admin.
      rewrite Hu.
      assert (negb (truthy (is_admin u) || (ident =? uid)) = false) as ->.
      { destruct Hok as [->| ->]; [done|]. by rewrite Z.eqb_refl, orb_true_r. }
      by rewrite Ht.
    + intros cats Ha. unfold RouteCategory.create_category, RouteCategory._require_admin.
      simpl. by rewrite Hu, Ha.
    + intros cc cats cid c Ha Hc.
      unfold RouteCategory.update_category, RouteCategory._require_admin.
      simpl. by rewrite Hu, Ha, Hc.
Qed.

Lemma other_faults_witness :
  RouteLoan.get_user_loans st2 7 1 = (Raise AttributeError, st2) ∧
  RouteUser.update_user plain_hash sample_commit_user st0 1 1 None
  = (Raise AttributeError, st0) ∧
  RouteCategory.update_category sample_commit_category lib0 2 1 None
  = (Raise AttributeError, lib0).
Proof.
  destruct (other_faults st2 7) as ((_ & Hlist) & _); [reflexivity|].
  destruct (other_faults st0 1) as (_ & _ & Halice).
  destruct (Halice alice eq_refl) as (Hupd & _).
  destruct (other_faults st0 2) as (_ & _ & Hroot).
  destruct (Hroot root eq_refl) as (_ & _ & Hcat).
  split; [apply Hlist|]. split.
  - apply (Hupd plain_hash sample_commit_user 1 alice); [by right|reflexivity].
  - apply (Hcat sample_commit_category (RouteCategory.categories lib0) 1
             {| RouteCategory.name := VStr "Fiction";
                RouteCategory.description := VNone |}); reflexivity.
Defined.

End EdgeTheory.
